(** * py3status module [xrandr_rotate]: a shallow embedding and its properties

    The module [src/py3status/modules/xrandr_rotate.py] is a small stateful
    widget: the class [Py3status] keeps one mutable field, [displayed], and
    talks to the [xrandr] command-line tool through a shell.

    The embedding follows the Python text method by method, as Python 3
    runs it.
    - Python [str] values are [string]; every character is read as a code
      point below 256. What a command prints is a value that is either
      text, when it decodes, or the bytes printed, when it does not: the
      module swallows the decoding error and goes on with the bytes.
    - The two dictionaries handed over by the host ([event], [i3s_config])
      are finite maps with string keys; a missing key raises [KeyError].
    - The instance is a record holding [displayed]; the shell is an oracle
      [popen] acting on an abstract outside world, and every command that
      [_call] starts is appended to a trace, so that the effects of a
      method are visible in its final state. A command line with a NUL
      character is refused before anything is started; every other
      command line is taken to start and to come to an end.
    - Python exceptions are an explicit outcome; a raised exception leaves
      the assignments made before it in place, as in Python. *)

From Stdlib Require Import ZArith String Ascii List Bool Lia.
From stdpp Require Import base strings gmap list.

Local Open Scope Z_scope.

(** ** The Python built-ins the module relies on *)

Module Py.

(** [str.isspace] on code points below 256: TAB..CR, FS..US, SPACE, NEL
    and NBSP. This is the set that [strip()] and [split()] use when they
    are called without an argument. *)
Definition isspace (c : ascii) : bool :=
  let n := nat_of_ascii c in
  (Nat.leb 9 n && Nat.leb n 13) || (Nat.leb 28 n && Nat.leb n 32)
  || Nat.eqb n 133 || Nat.eqb n 160.

Fixpoint lstrip (s : string) : string :=
  match s with
  | EmptyString => EmptyString
  | String c s' => if isspace c then lstrip s' else s
  end.

Definition rstrip (s : string) : string :=
  String.rev (lstrip (String.rev s)).

(** [s.strip()] *)
Definition strip (s : string) : string := rstrip (lstrip s).

(** [s.split()]: the maximal runs of non-space characters, in order.
    [cur] is the run being read, most recent character first. *)
Fixpoint split_go (cur : list ascii) (s : string) : list string :=
  let flush := match cur with
               | [] => []
               | _ => [string_of_list_ascii (List.rev cur)]
               end in
  match s with
  | EmptyString => flush
  | String c s' =>
      if isspace c then flush ++ split_go [] s'
      else split_go (c :: cur) s'
  end.

Definition split (s : string) : list string := split_go [] s.

(** [s.startswith(p)] *)
Fixpoint startswith (s p : string) {struct p} : bool :=
  match p, s with
  | EmptyString, _ => true
  | String a p', String b s' => Ascii.eqb a b && startswith s' p'
  | String _ _, EmptyString => false
  end.

(** [x in l] for a list of strings. *)
Definition contains (l : list string) (x : string) : bool :=
  existsb (String.eqb x) l.

(** Truth value of a string: only [''] is false. *)
Definition truthy (s : string) : bool := negb (String.eqb s "").

(** Truth value of a value that is [None] or a string. *)
Definition truthy_opt (o : option string) : bool :=
  match o with
  | Some s => truthy s
  | None => false
  end.

(** The exceptions that can leave the module's methods. *)
Inductive exn : Type :=
| IndexError
| KeyError (key : string)
| ValueError
| TypeError.

Inductive outcome (A : Type) : Type :=
| Ok (a : A)
| Raise (e : exn).
Arguments Ok {A} a.
Arguments Raise {A} e.

(** What a command printed, after the decoding attempt: text, or the bytes
    themselves when they do not decode. *)
Inductive value : Type :=
| Str (s : string)
| Bytes (b : string).

(** [bytes.isspace]: TAB..CR and SPACE only. *)
Definition isspace_bytes (c : ascii) : bool :=
  let n := nat_of_ascii c in
  (Nat.leb 9 n && Nat.leb n 13) || Nat.eqb n 32.

Fixpoint lstrip_bytes (b : string) : string :=
  match b with
  | EmptyString => EmptyString
  | String c b' => if isspace_bytes c then lstrip_bytes b' else b
  end.

Definition rstrip_bytes (b : string) : string :=
  String.rev (lstrip_bytes (String.rev b)).

Definition strip_bytes (b : string) : string := rstrip_bytes (lstrip_bytes b).

Fixpoint split_bytes_go (cur : list ascii) (b : string) : list string :=
  let flush := match cur with
               | [] => []
               | _ => [string_of_list_ascii (List.rev cur)]
               end in
  match b with
  | EmptyString => flush
  | String c b' =>
      if isspace_bytes c then flush ++ split_bytes_go [] b'
      else split_bytes_go (c :: cur) b'
  end.

Definition split_bytes (b : string) : list string := split_bytes_go [] b.

(** [v.strip()] and [v.split()] on a value of either kind. *)
Definition strip_value (v : value) : value :=
  match v with
  | Str s => Str (strip s)
  | Bytes b => Bytes (strip_bytes b)
  end.

Definition split_value (v : value) : list value :=
  match v with
  | Str s => map Str (split s)
  | Bytes b => map Bytes (split_bytes b)
  end.

(** [x == y]: text and bytes are never equal. *)
Definition value_eqb (x y : value) : bool :=
  match x, y with
  | Str a, Str b => String.eqb a b
  | Bytes a, Bytes b => String.eqb a b
  | _, _ => false
  end.

(** [x in l] for a list of values. *)
Definition contains_value (l : list value) (x : value) : bool :=
  existsb (value_eqb x) l.

(** [Popen] refuses a command line that holds a NUL character. *)
Definition has_nul (s : string) : bool :=
  existsb (Ascii.eqb "000"%char) (list_ascii_of_string s).

(** [d[key]] *)
Definition getitem {V : Type} (d : gmap string V) (key : string) : outcome V :=
  match d !! key with
  | Some v => Ok v
  | None => Raise (KeyError key)
  end.

(** A model of [template.format(icon=icon, screen=screen)] for templates
    made of literal text, the escapes [{{] and [}}], and replacement
    fields that consist of a bare name, [screen] being text. A positional
    field ([{}], [{0}]) finds no positional argument, or is refused when
    its number does not fit a machine word of 64 bits; an unknown name
    finds no keyword argument; a stray brace is a syntax error of the
    template; the first error met from the left is the one raised.
    Conversions, format specifications, attribute or index access, and a
    [screen] that is bytes are not covered: [format] answers [None] on a
    template that uses them. *)
Definition is_digit (c : ascii) : bool :=
  let n := nat_of_ascii c in Nat.leb 48 n && Nat.leb n 57.

Definition all_digits (s : string) : bool :=
  forallb is_digit (list_ascii_of_string s).

(** The number a run of digits stands for. *)
Definition field_index (s : string) : N :=
  fold_left (fun acc c => (acc * 10 + (N_of_ascii c - 48))%N)
            (list_ascii_of_string s) 0%N.

Definition field_value (icon : string) (screen : value) (name : string)
  : option (outcome string) :=
  if all_digits name then
    if (9223372036854775807 <? field_index name)%N
    then Some (Raise ValueError)
    else Some (Raise IndexError)
  else if String.eqb name "icon" then Some (Ok icon)
  else if String.eqb name "screen" then
    match screen with
    | Str s => Some (Ok s)
    | Bytes _ => None
    end
  else Some (Raise (KeyError name)).

(** The scanner is either in literal text or inside a field, whose name
    so far it keeps with the most recent character first. *)
Inductive mode : Type :=
| Text
| Field (acc : list ascii).

Definition prepend (v : string) (r : option (outcome string))
  : option (outcome string) :=
  match r with
  | Some (Ok s) => Some (Ok (v +:+ s))
  | other => other
  end.

Fixpoint format_go (icon : string) (screen : value) (m : mode) (s : string)
  : option (outcome string) :=
  match s, m with
  | EmptyString, Text => Some (Ok EmptyString)
  | EmptyString, Field _ => Some (Raise ValueError)
  | String c s', Text =>
      if Ascii.eqb c "{" then
        match s' with
        | String "{" s'' => prepend "{" (format_go icon screen Text s'')
        | _ => format_go icon screen (Field []) s'
        end
      else if Ascii.eqb c "}" then
        match s' with
        | String "}" s'' => prepend "}" (format_go icon screen Text s'')
        | _ => Some (Raise ValueError)
        end
      else prepend (String c EmptyString) (format_go icon screen Text s')
  | String c s', Field acc =>
      if Ascii.eqb c "}" then
        match field_value icon screen (string_of_list_ascii (List.rev acc)) with
        | None => None
        | Some (Raise e) => Some (Raise e)
        | Some (Ok v) => prepend v (format_go icon screen Text s')
        end
      else if Ascii.eqb c "{" then Some (Raise ValueError)
      else if Ascii.eqb c "!" || Ascii.eqb c ":" || Ascii.eqb c "."
              || Ascii.eqb c "[" then None
      else format_go icon screen (Field (c :: acc)) s'
  end.

Definition format (template icon : string) (screen : value)
  : option (outcome string) :=
  format_go icon screen Text template.

(** [format] as a total function, for the templates of the scenarios. It
    coincides with [str.format] wherever [format] answers; elsewhere it
    reports the template as invalid, which Python need not do. *)
Definition format_plain (template icon : string) (screen : value)
  : outcome string :=
  match format template icon screen with
  | Some r => r
  | None => Raise ValueError
  end.

End Py.

Import Py.

(** ** The widget *)

(** Configuration parameters: the class attributes of [Py3status], which the
    host may override before the first call. [screen] is [None] or a name. *)
Record Config : Type := {
  cache_timeout : Z;
  format : string;
  hide_if_disconnected : bool;
  horizontal_icon : string;
  horizontal_rotation : string;
  screen : option string;
  vertical_icon : string;
  vertical_rotation : string
}.

Definition default_config : Config := {|
  cache_timeout := 10;
  format := "{icon}";
  hide_if_disconnected := false;
  horizontal_icon := "H";
  horizontal_rotation := "normal";
  screen := None;
  vertical_icon := "V";
  vertical_rotation := "left"
|}.

(** The dictionary returned by [xrandr_rotate]; [color] is [None] when the
    key is absent. *)
Record Response : Type := {
  cached_until : Z;
  full_text : string;
  color : option string
}.

Definition dquote : string := String "034"%char EmptyString.

(** The three command lines the module builds. *)
Definition list_cmd : string :=
  "xrandr -q | grep " +:+ dquote +:+ " connected [^(]" +:+ dquote
  +:+ " | cut -d " +:+ dquote +:+ " " +:+ dquote +:+ " -f1".

Definition query_cmd (output : string) : string :=
  "xrandr -q | grep " +:+ dquote +:+ "^" +:+ output +:+ dquote
  +:+ " | cut -d " +:+ dquote +:+ " " +:+ dquote +:+ " -f4".

Definition rotate_cmd (output rotation : string) : string :=
  "xrandr --output " +:+ output +:+ " --rotate " +:+ rotation.

(** Lines 80 and 90 on an output that may be bytes: text and bytes cannot
    be concatenated. *)
Definition query_of (output : value) : outcome string :=
  match output with
  | Str s => Ok (query_cmd s)
  | Bytes _ => Raise TypeError
  end.

Definition rotate_of (output : value) (rotation : string) : outcome string :=
  match output with
  | Str s => Ok (rotate_cmd s rotation)
  | Bytes _ => Raise TypeError
  end.

(** Line 83: the classification of a rotation descriptor. *)
Definition is_horizontal (output : string) : bool :=
  Py.startswith output "(" || Py.contains ["normal"; "inverted"] output.

(** Line 83 on an answer that may be bytes: [startswith] of bytes refuses a
    text prefix. *)
Definition horizontal_of (output : value) : outcome bool :=
  match output with
  | Str s => Ok (is_horizontal s)
  | Bytes _ => Raise TypeError
  end.

Section Widget.

(** The outside world and the shell: [popen cmd w] is what the command
    writes to its standard output, as it stands after line 69, and the
    world the command leaves behind. The output is [Str] of its text when
    it decodes, [Str ""] when nothing is written, and [Bytes] of what was
    written when decoding fails. *)
Context {Ext : Type}.
Variable popen : string -> Ext -> value * Ext.

(** [template.format(icon=.., screen=..)] of the host language. *)
Variable str_format : string -> string -> value -> outcome string.

(** The configuration of the instance. *)
Variable self : Config.

(** The instance: its field [displayed], the world it acts on, and the
    commands it has started so far, oldest first. *)
Record State : Type := {
  displayed : string;
  world : Ext;
  calls : list string
}.

(** [__init__] *)
Definition init (w : Ext) : State :=
  {| displayed := ""; world := w; calls := [] |}.

(** Methods are state transformers that return a value or raise. *)
Definition M (A : Type) : Type := State -> outcome A * State.

Definition ret {A : Type} (a : A) : M A := fun st => (Ok a, st).

Definition raise {A : Type} (e : exn) : M A := fun st => (Raise e, st).

Definition bind {A B : Type} (m : M A) (k : A -> M B) : M B :=
  fun st =>
    match m st with
    | (Ok a, st') => k a st'
    | (Raise e, st') => (Raise e, st')
    end.

Definition lift {A : Type} (o : outcome A) : M A := fun st => (o, st).

Definition get_displayed : M string := fun st => (Ok (displayed st), st).

Definition set_displayed (v : string) : M unit := fun st =>
  (Ok tt, {| displayed := v; world := world st; calls := calls st |}).

Notation "'do' x <- m ; k" := (bind m (fun x => k))
  (at level 10, x name, m at level 100, k at level 200).
Notation "'exec' m ; k" := (bind m (fun _ => k))
  (at level 10, m at level 100, k at level 200).

(** [_call], lines 64-72. [Popen] raises [ValueError] on a command line
    with a NUL character, and then nothing is started. Otherwise the
    command runs through the shell, and what it printed is stripped, as
    text or, after the swallowed decoding error, as bytes. *)
Definition _call (cmd : string) : M value := fun st =>
  if Py.has_nul cmd then (Raise ValueError, st)
  else
    let '(output, w') := popen cmd (world st) in
    (Ok (Py.strip_value output),
     {| displayed := displayed st; world := w'; calls := calls st ++ [cmd] |}).

(** Lines 74-76. *)
Definition _get_all_outputs : M (list value) :=
  do output <- _call list_cmd ;
  ret (Py.split_value output).

(** Line 79, [self.screen or all_outputs[0]]: the list is only indexed when
    [screen] is [None] or empty, and indexing the empty list raises. *)
Definition screen_or_first (all_outputs : list value) : M value :=
  match screen self with
  | Some s => if Py.truthy s then ret (Str s) else
                match all_outputs with
                | o :: _ => ret o
                | [] => raise IndexError
                end
  | None => match all_outputs with
            | o :: _ => ret o
            | [] => raise IndexError
            end
  end.

(** Lines 78-84. *)
Definition _get_current_rotation_icon (all_outputs : list value) : M string :=
  do output <- screen_or_first all_outputs ;
  do cmd <- lift (query_of output) ;
  do output <- _call cmd ;
  do horizontal <- lift (horizontal_of output) ;
  ret (if horizontal : bool then horizontal_icon self
       else vertical_icon self).

(** [for output in outputs: body] *)
Fixpoint for_each (outputs : list value) (body : value -> M unit) : M unit :=
  match outputs with
  | [] => ret tt
  | output :: rest => exec body output ; for_each rest body
  end.

(** Lines 86-91. *)
Definition _apply : M unit :=
  do d <- get_displayed ;
  let rotation := if String.eqb d (horizontal_icon self)
                  then horizontal_rotation self
                  else vertical_rotation self in
  do outputs <- (match screen self with
                 | Some s => if Py.truthy s then ret [Str s]
                             else _get_all_outputs
                 | None => _get_all_outputs
                 end) ;
  for_each outputs (fun output =>
    do cmd <- lift (rotate_of output rotation) ;
    exec _call cmd ; ret tt).

(** Lines 93-94. *)
Definition _switch_selection : M unit :=
  do d <- get_displayed ;
  set_displayed (if String.eqb d (horizontal_icon self)
                 then vertical_icon self
                 else horizontal_icon self).

(** Lines 96-106; the two list arguments are not used. *)
Definition on_click (event : gmap string Z) : M unit :=
  do button <- lift (Py.getitem event "button") ;
  if (button =? 1) || (button =? 4) || (button =? 5) then _switch_selection
  else if button =? 3 then _apply
  else ret tt.

(** Line 118. The conditional expression binds weaker than [or]:
    [(self.screen or all_outputs[0]) if len(all_outputs) == 1 else 'ALL']. *)
Definition screen_label (all_outputs : list value) : value :=
  match all_outputs with
  | [o] => match screen self with
           | Some s => if Py.truthy s then Str s else o
           | None => o
           end
  | _ => Str "ALL"
  end.

(** [xrandr_rotate], lines 108-132; [now] is the value [time()] returns
    during the call, taken as an integer. *)
Definition xrandr_rotate (now : Z) (i3s_config : gmap string string)
  : M Response :=
  do all_outputs <- _get_all_outputs ;
  let selected_screen_disconnected :=
    match screen self with
    | Some s => negb (Py.contains_value all_outputs (Str s))
    | None => false
    end in
  do full_text <-
    (if selected_screen_disconnected && hide_if_disconnected self then
       exec set_displayed "" ; ret ""
     else
       do d <- get_displayed ;
       exec (if Py.truthy d then ret tt
             else do icon <- _get_current_rotation_icon all_outputs ;
                  set_displayed icon) ;
       do d <- get_displayed ;
       lift (str_format (format self) (if Py.truthy d then d else "?")
                        (screen_label all_outputs))) ;
  let response := {| cached_until := now + cache_timeout self;
                     full_text := full_text;
                     color := None |} in
  if selected_screen_disconnected && negb (hide_if_disconnected self) then
    do c <- lift (Py.getitem i3s_config "color_degraded") ;
    ret {| cached_until := cached_until response;
           full_text := full_text;
           color := Some c |}
  else
    do d <- get_displayed ;
    do icon <- _get_current_rotation_icon all_outputs ;
    if String.eqb d icon then
      do c <- lift (Py.getitem i3s_config "color_good") ;
      ret {| cached_until := cached_until response;
             full_text := full_text;
             color := Some c |}
    else ret response.

(** The host drives the instance through its two entry points. A call
    that raises is dropped by the host and the instance lives on. *)
Inductive Call : Type :=
| Click (event : gmap string Z)
| Render (now : Z) (i3s_config : gmap string string).

Definition step (c : Call) (st : State) : State :=
  match c with
  | Click event => snd (on_click event st)
  | Render now i3s_config => snd (xrandr_rotate now i3s_config st)
  end.

Definition run (cs : list Call) (st : State) : State :=
  fold_left (fun st c => step c st) cs st.

(** What [listOutputs()] yields in world [w], and the rotation descriptor
    the tool reports there for [output]. *)
Definition enumerated (w : Ext) : list value :=
  Py.split_value (Py.strip_value (fst (popen list_cmd w))).

Definition descriptor (output : string) (w : Ext) : value :=
  Py.strip_value (fst (popen (query_cmd output) w)).

(** The data invariant of the field [displayed]. *)
Definition displayed_ok (st : State) : Prop :=
  displayed st = "" \/ displayed st = horizontal_icon self
  \/ displayed st = vertical_icon self.

(** The tool answers alike however often it is asked in world [w]. *)
Definition stable (w : Ext) : Prop :=
  forall cmd, snd (popen cmd w) = w.

(** [wp m Q st]: running [m] from [st] ends with an outcome and a state
    that satisfy [Q]. *)
Definition wp {A : Type} (m : M A) (Q : outcome A -> State -> Prop)
           (st : State) : Prop :=
  Q (fst (m st)) (snd (m st)).

(** The part of an outcome the host shows: text and colour tag. *)
Definition shown (o : outcome Response) : outcome (string * option string) :=
  match o with
  | Ok r => Ok (full_text r, color r)
  | Raise e => Raise e
  end.

(** The test of line 110, on what the tool enumerates in world [w]: a
    screen is configured and is not among the outputs. *)
Definition disconnected (w : Ext) : bool :=
  match screen self with
  | Some s => negb (Py.contains_value (enumerated w) (Str s))
  | None => false
  end.

(** The icon for a rotation descriptor, and the icon for the rotation the
    tool reports for [output] in world [w]; a descriptor that is bytes has
    none. *)
Definition icon_for (d : string) : string :=
  if is_horizontal d then horizontal_icon self else vertical_icon self.

Definition icon_of (output : string) (w : Ext) : outcome string :=
  match descriptor output w with
  | Str d => Ok (icon_for d)
  | Bytes _ => Raise TypeError
  end.

(** Lines 145-147, the loop of the test driver: render, print, sleep, for
    ever. [nows] holds the clock readings of the iterations observed, so
    the function gives the responses printed during a finite prefix of the
    run. An exception is not caught: it ends the program, and what was
    printed before it stays printed. *)
Fixpoint poll (nows : list Z) (i3s_config : gmap string string) (st : State)
  : list Response * option exn * State :=
  match nows with
  | [] => ([], None, st)
  | now :: later =>
      match xrandr_rotate now i3s_config st with
      | (Ok response, st') =>
          let '(printed, e, st'') := poll later i3s_config st' in
          (response :: printed, e, st'')
      | (Raise e, st') => ([], Some e, st')
      end
  end.

End Widget.

Arguments State : clear implicits.
Arguments init {Ext} w.
Arguments shown o : clear implicits.

(** ** The tools and settings of the scenarios *)

(** A tool that answers the enumeration with [names] and every other
    command with [descriptor], both as text; the world has no state of its
    own. *)
Definition fixed_tool (names descriptor : string)
  : string -> unit -> value * unit :=
  fun cmd w => (Str (if String.eqb cmd list_cmd then names else descriptor), w).

Definition with_screen (c : Config) (s : option string) : Config :=
  {| cache_timeout := cache_timeout c;
     format := format c;
     hide_if_disconnected := hide_if_disconnected c;
     horizontal_icon := horizontal_icon c;
     horizontal_rotation := horizontal_rotation c;
     screen := s;
     vertical_icon := vertical_icon c;
     vertical_rotation := vertical_rotation c |}.

Definition with_icons (c : Config) (h v : string) : Config :=
  {| cache_timeout := cache_timeout c;
     format := format c;
     hide_if_disconnected := hide_if_disconnected c;
     horizontal_icon := h;
     horizontal_rotation := horizontal_rotation c;
     screen := screen c;
     vertical_icon := v;
     vertical_rotation := vertical_rotation c |}.

Definition with_format (c : Config) (f : string) : Config :=
  {| cache_timeout := cache_timeout c;
     format := f;
     hide_if_disconnected := hide_if_disconnected c;
     horizontal_icon := horizontal_icon c;
     horizontal_rotation := horizontal_rotation c;
     screen := screen c;
     vertical_icon := vertical_icon c;
     vertical_rotation := vertical_rotation c |}.

(** The colours of the module's own test driver (lines 140-144). *)
Definition test_colors : gmap string string :=
  <["color_bad" := "#FF0000"]>
    (<["color_degraded" := "#FFFF00"]>
       (<["color_good" := "#00FF00"]> ∅)).

(** Lines 135-147, the test driver: a fresh instance with the default
    configuration, polled with the driver's own colours. *)
Definition main {Ext : Type} (popen : string -> Ext -> value * Ext)
           (str_format : string -> string -> value -> outcome string)
           (nows : list Z) (w : Ext)
  : list Response * option exn * State Ext :=
  poll popen str_format default_config nows test_colors (init w).

Definition click (button : Z) : gmap string Z := {["button" := button]}.

Definition nl : string := String "010"%char EmptyString.

Definition nul : string := String "000"%char EmptyString.

(** One laptop panel, unrotated. *)
Definition laptop_tool : string -> unit -> value * unit :=
  fixed_tool ("eDP1" +:+ nl) ("normal" +:+ nl).

(** The same panel; the tool has no line for the output asked about. *)
Definition silent_tool : string -> unit -> value * unit :=
  fixed_tool ("eDP1" +:+ nl) "".

(** Two connected outputs, unrotated. *)
Definition docked_tool : string -> unit -> value * unit :=
  fixed_tool ("eDP1" +:+ nl +:+ "VGA1" +:+ nl) ("normal" +:+ nl).

(** Nothing connected, or no tool at all: every command prints nothing. *)
Definition mute_tool : string -> unit -> value * unit :=
  fixed_tool "" "".

(** Two connected outputs, the first turned left and the second not. *)
Definition turned_tool : string -> unit -> value * unit :=
  fun cmd w =>
    (Str (if String.eqb cmd list_cmd then "eDP1" +:+ nl +:+ "VGA1" +:+ nl
          else if String.eqb cmd (query_cmd "eDP1") then "left" +:+ nl
          else "normal" +:+ nl), w).

(** Three names enumerated, the second with a NUL character in it. *)
Definition nul_tool : string -> unit -> value * unit :=
  fixed_tool ("eDP1" +:+ nl +:+ "VG" +:+ nul +:+ "A1" +:+ nl +:+ "DP2" +:+ nl)
             ("normal" +:+ nl).

(** One panel listed as text; the answer about a rotation does not
    decode. *)
Definition garbled_tool : string -> unit -> value * unit :=
  fun cmd w =>
    (if String.eqb cmd list_cmd then Str ("eDP1" +:+ nl)
     else Bytes (String "255"%char nl), w).

(** What the tool prints does not decode: a byte 255 in the second name. *)
Definition raw_tool : string -> unit -> value * unit :=
  fun cmd w =>
    (Bytes ("eDP1" +:+ nl +:+ String "255"%char "GA1" +:+ nl), w).

Definition vga_config : Config :=
  with_format (with_screen default_config (Some "VGA1")) "{icon} {screen}".

Definition hidden_vga_config : Config :=
  {| cache_timeout := 10;
     format := "{icon} {screen}";
     hide_if_disconnected := true;
     horizontal_icon := "H";
     horizontal_rotation := "normal";
     screen := Some "VGA1";
     vertical_icon := "V";
     vertical_rotation := "left" |}.

(** ** Properties *)

(** *** The built-ins *)

Lemma startswith_paren (s : string) :
  Py.startswith s "(" = true <-> exists rest, s = String "(" rest.
Proof.
  destruct s as [|c s]; cbn [Py.startswith].
  - split; [intros H | intros [rest H]]; discriminate.
  - rewrite andb_true_r, Ascii.eqb_eq. split.
    + intros <-. eauto.
    + intros [rest H]. congruence.
Qed.

Lemma is_horizontal_spec (d : string) :
  is_horizontal d = true <->
  (d = "normal" \/ d = "inverted" \/ exists rest, d = String "(" rest).
Proof.
  unfold is_horizontal, Py.contains. cbn [existsb].
  rewrite !orb_true_iff, startswith_paren, !String.eqb_eq.
  intuition discriminate.
Qed.

Lemma is_horizontal_empty : is_horizontal "" = false.
Proof. reflexivity. Qed.

Lemma truthy_spec (s : string) : Py.truthy s = true <-> s <> "".
Proof.
  unfold Py.truthy. rewrite negb_true_iff. split.
  - intros H ->. discriminate.
  - intros H. apply String.eqb_neq. exact H.
Qed.

Lemma truthy_false (s : string) : Py.truthy s = false <-> s = "".
Proof.
  unfold Py.truthy. rewrite negb_false_iff. apply String.eqb_eq.
Qed.

Lemma has_nul_app (a b : string) :
  Py.has_nul (a +:+ b) = Py.has_nul a || Py.has_nul b.
Proof.
  unfold Py.has_nul. induction a as [|c a IH].
  - reflexivity.
  - change (String c a +:+ b) with (String c (a +:+ b)).
    cbn [list_ascii_of_string existsb]. rewrite IH. apply orb_assoc.
Qed.

Lemma has_nul_list_cmd : Py.has_nul list_cmd = false.
Proof. reflexivity. Qed.

Lemma has_nul_query_cmd (output : string) :
  Py.has_nul (query_cmd output) = Py.has_nul output.
Proof.
  unfold query_cmd. rewrite !has_nul_app.
  change (Py.has_nul "xrandr -q | grep ") with false.
  change (Py.has_nul dquote) with false.
  change (Py.has_nul "^") with false.
  change (Py.has_nul " | cut -d ") with false.
  change (Py.has_nul " ") with false.
  change (Py.has_nul " -f4") with false.
  cbn [orb]. rewrite !orb_false_r. reflexivity.
Qed.

Lemma has_nul_rotate_cmd (output rotation : string) :
  Py.has_nul (rotate_cmd output rotation)
  = Py.has_nul output || Py.has_nul rotation.
Proof.
  unfold rotate_cmd. rewrite !has_nul_app.
  change (Py.has_nul "xrandr --output ") with false.
  change (Py.has_nul " --rotate ") with false.
  cbn [orb]. reflexivity.
Qed.

(** *** The methods, run on a state *)

Section Properties.

Context {Ext : Type}.
Variable popen : string -> Ext -> value * Ext.
Variable str_format : string -> string -> value -> outcome string.
Variable self : Config.

Implicit Types (st : State Ext) (w : Ext) (all_outputs : list value).

Lemma call_run cmd st :
  Py.has_nul cmd = false ->
  _call popen cmd st =
  (Ok (Py.strip_value (fst (popen cmd (world st)))),
   {| displayed := displayed st;
      world := snd (popen cmd (world st));
      calls := calls st ++ [cmd] |}).
Proof.
  intros Hn. unfold _call. rewrite Hn.
  destruct (popen cmd (world st)); reflexivity.
Qed.

Lemma call_refused cmd st :
  Py.has_nul cmd = true -> _call popen cmd st = (Raise ValueError, st).
Proof. intros Hn. unfold _call. rewrite Hn. reflexivity. Qed.

Lemma get_all_outputs_run st :
  _get_all_outputs popen st =
  (Ok (enumerated popen (world st)),
   {| displayed := displayed st;
      world := snd (popen list_cmd (world st));
      calls := calls st ++ [list_cmd] |}).
Proof.
  unfold _get_all_outputs, bind, ret.
  rewrite (call_run _ _ has_nul_list_cmd). reflexivity.
Qed.

Lemma screen_or_first_pure all_outputs st :
  snd (screen_or_first self all_outputs st) = st.
Proof.
  unfold screen_or_first.
  destruct (screen self) as [s|]; [destruct (Py.truthy s)|];
    try reflexivity; destruct all_outputs; reflexivity.
Qed.

(** The icon query on a text target without NUL whose answer is text. *)
Lemma current_rotation_icon_run all_outputs target d st :
  fst (screen_or_first self all_outputs st) = Ok (Str target) ->
  Py.has_nul target = false ->
  descriptor popen target (world st) = Str d ->
  _get_current_rotation_icon popen self all_outputs st =
  (Ok (icon_for self d),
   {| displayed := displayed st;
      world := snd (popen (query_cmd target) (world st));
      calls := calls st ++ [query_cmd target] |}).
Proof.
  intros Ht Hn Hd. unfold _get_current_rotation_icon, bind at 1.
  pose proof (screen_or_first_pure all_outputs st) as Hs.
  destruct (screen_or_first self all_outputs st) as [o st0].
  simpl in Ht, Hs. subst o st0.
  unfold bind, ret, lift. cbn [query_of].
  rewrite call_run by (rewrite has_nul_query_cmd; exact Hn).
  unfold descriptor in Hd. rewrite Hd. reflexivity.
Qed.

(** [self.screen or all_outputs[0]] raises nothing but [IndexError], and
    only on an empty list. *)
Lemma screen_or_first_cases all_outputs st :
  (exists target, fst (screen_or_first self all_outputs st) = Ok target)
  \/ (fst (screen_or_first self all_outputs st) = Raise IndexError
      /\ all_outputs = [] /\ Py.truthy_opt (screen self) = false).
Proof.
  unfold screen_or_first, Py.truthy_opt.
  destruct (screen self) as [s|]; [destruct (Py.truthy s)|];
    try (left; eexists; reflexivity);
    (destruct all_outputs; [right; auto | left; eexists; reflexivity]).
Qed.

(** *** Symbolic execution *)

Lemma wp_bind {A B} (m : M A) (k : A -> M B) Q st :
  wp m (fun r st' => match r with
                     | Ok a => wp (k a) Q st'
                     | Raise e => Q (Raise e) st'
                     end) st ->
  wp (bind m k) Q st.
Proof.
  unfold wp, bind. destruct (m st) as [[a|e] st']; simpl; auto.
Qed.

Lemma wp_ret {A} (a : A) Q st : Q (Ok a) st -> wp (ret a) Q st.
Proof. auto. Qed.

Lemma wp_raise {A} e (Q : outcome A -> State Ext -> Prop) st :
  Q (Raise e) st -> wp (raise e) Q st.
Proof. auto. Qed.

Lemma wp_lift {A} (o : outcome A) Q st : Q o st -> wp (lift o) Q st.
Proof. auto. Qed.

Lemma wp_get_displayed Q st :
  Q (Ok (displayed st)) st -> wp get_displayed Q st.
Proof. auto. Qed.

Lemma wp_set_displayed v Q st :
  Q (Ok tt) {| displayed := v; world := world st; calls := calls st |} ->
  wp (set_displayed v) Q st.
Proof. auto. Qed.

Lemma wp_call cmd Q st :
  (if Py.has_nul cmd then Q (Raise ValueError) st
   else Q (Ok (Py.strip_value (fst (popen cmd (world st)))))
          {| displayed := displayed st;
             world := snd (popen cmd (world st));
             calls := calls st ++ [cmd] |}) ->
  wp (_call popen cmd) Q st.
Proof.
  unfold wp. destruct (Py.has_nul cmd) eqn:Hn.
  - rewrite (call_refused _ _ Hn). auto.
  - rewrite (call_run _ _ Hn). auto.
Qed.

Lemma wp_get_all_outputs Q st :
  Q (Ok (enumerated popen (world st)))
    {| displayed := displayed st;
       world := snd (popen list_cmd (world st));
       calls := calls st ++ [list_cmd] |} ->
  wp (_get_all_outputs popen) Q st.
Proof. unfold wp. rewrite get_all_outputs_run. auto. Qed.

Lemma wp_elim {A} (m : M A) (Q : outcome A -> State Ext -> Prop) st :
  wp m Q st -> exists r st', m st = (r, st') /\ Q r st'.
Proof.
  unfold wp. intros H. exists (fst (m st)), (snd (m st)).
  split; [apply surjective_pairing | exact H].
Qed.

(** One step of execution of the command at the head of the goal. *)
Ltac wp_step :=
  lazymatch goal with
  | |- wp (bind _ _) _ _ => apply wp_bind
  | |- wp (ret _) _ _ => apply wp_ret
  | |- wp (raise _) _ _ => apply wp_raise
  | |- wp (lift _) _ _ => apply wp_lift
  | |- wp get_displayed _ _ => apply wp_get_displayed
  | |- wp (set_displayed _) _ _ => apply wp_set_displayed
  | |- wp (_call _ _) _ _ => apply wp_call
  | |- wp (_get_all_outputs _) _ _ => apply wp_get_all_outputs
  | |- wp (_get_current_rotation_icon _ _ _) _ _ =>
      unfold _get_current_rotation_icon
  | |- wp (screen_or_first _ _) _ _ => unfold screen_or_first
  | |- wp (xrandr_rotate _ _ _ _ _) _ _ => unfold xrandr_rotate
  | |- wp (if ?b then _ else _) _ _ => destruct b eqn:?
  | |- wp (match ?x with _ => _ end) _ _ => destruct x eqn:?
  | |- match query_of ?v with _ => _ end => destruct v eqn:?
  | |- match horizontal_of ?v with _ => _ end => destruct v eqn:?
  | |- match ?x with _ => _ end => destruct x eqn:?
  end;
  cbn beta iota delta [displayed world calls fst snd query_of horizontal_of].

Ltac wp_run := repeat wp_step.

(** Evaluate the tests on strings that are known. *)
Ltac concrete :=
  cbn [Py.truthy Py.truthy_opt Py.contains Py.contains_value Py.value_eqb
       existsb String.eqb Ascii.eqb Bool.eqb negb andb orb].

(** Use the equations gathered along a path, everywhere at once. *)
Ltac settle :=
  repeat match goal with
         | H : ?x = ?x |- _ => clear H
         | H : _ = _ |- _ => progress rewrite H in *
         end;
  cbn beta iota delta [displayed world calls fst snd query_of horizontal_of].

(** *** The rotation icon *)

(** C4, as the code has it. Whatever output is inspected, under a name
    that is text without NUL, once the tool has answered the query with a
    descriptor that is text, the icon returned is the horizontal one
    exactly for the descriptors [normal],
    [inverted] and those that begin with an opening parenthesis, and the
    vertical one for every other descriptor; the empty descriptor is among
    the latter. An answer that is bytes has no icon: the query raises
    [TypeError]. *)
Theorem current_rotation_icon_classification all_outputs target st :
  fst (screen_or_first self all_outputs st) = Ok (Str target) ->
  Py.has_nul target = false ->
  let icon := fst (_get_current_rotation_icon popen self all_outputs st) in
  (forall d, descriptor popen target (world st) = Str d ->
     ((d = "normal" \/ d = "inverted" \/ exists rest, d = String "(" rest) ->
      icon = Ok (horizontal_icon self))
     /\ (~ (d = "normal" \/ d = "inverted" \/ exists rest, d = String "(" rest) ->
         icon = Ok (vertical_icon self))
     /\ (d = "" -> icon = Ok (vertical_icon self)))
  /\ (forall b, descriptor popen target (world st) = Bytes b ->
        icon = Raise TypeError).
Proof.
  intros Ht Hn icon. subst icon. split.
  - intros d Hd.
    rewrite (current_rotation_icon_run _ _ _ _ Ht Hn Hd). cbn [fst].
    unfold icon_for. pose proof (is_horizontal_spec d) as Hspec.
    destruct (is_horizontal d) eqn:Hh.
    + split; [reflexivity|]. split.
      * intros Hno. exfalso. apply Hno, Hspec. reflexivity.
      * intros He. rewrite He in Hh. discriminate.
    + split; [|split; reflexivity].
      intros Hyes. apply Hspec in Hyes. discriminate.
  - intros b Hb. unfold descriptor in Hb.
    unfold _get_current_rotation_icon, bind at 1.
    pose proof (screen_or_first_pure all_outputs st) as Hs.
    destruct (screen_or_first self all_outputs st) as [o st0].
    simpl in Ht, Hs. subst o st0.
    unfold bind, ret, lift. cbn [query_of].
    rewrite call_run by (rewrite has_nul_query_cmd; exact Hn).
    rewrite Hb. reflexivity.
Qed.

(** *** Clicks *)

Lemma switch_selection_run st :
  _switch_selection self st =
  (Ok tt,
   {| displayed := if String.eqb (displayed st) (horizontal_icon self)
                   then vertical_icon self else horizontal_icon self;
      world := world st;
      calls := calls st |}).
Proof. reflexivity. Qed.

Lemma on_click_button event button st :
  event !! "button" = Some button ->
  on_click popen self event st =
  (if (button =? 1) || (button =? 4) || (button =? 5)
   then _switch_selection self
   else if button =? 3 then _apply popen self
   else ret tt) st.
Proof.
  intros Hb. unfold on_click, bind, lift, Py.getitem. rewrite Hb. reflexivity.
Qed.

Lemma on_click_switch event button st :
  event !! "button" = Some button ->
  button = 1 \/ button = 4 \/ button = 5 ->
  on_click popen self event st =
  (Ok tt,
   {| displayed := if String.eqb (displayed st) (horizontal_icon self)
                   then vertical_icon self else horizontal_icon self;
      world := world st;
      calls := calls st |}).
Proof.
  intros Hb Hin. rewrite (on_click_button _ _ _ Hb).
  replace ((button =? 1) || (button =? 4) || (button =? 5)) with true
    by (destruct Hin as [-> | [-> | ->]]; reflexivity).
  apply switch_selection_run.
Qed.

Lemma on_click_right event st :
  event !! "button" = Some 3 ->
  on_click popen self event st = _apply popen self st.
Proof. intros Hb. rewrite (on_click_button _ _ _ Hb). reflexivity. Qed.

(** C5. A click with button 1, 4 or 5 returns normally, touches neither
    the world nor the trace, and leaves [displayed] equal to one of the two
    configured icons: the vertical one if it was the horizontal one, the
    horizontal one otherwise. *)
Theorem on_click_toggle event button st :
  event !! "button" = Some button ->
  button = 1 \/ button = 4 \/ button = 5 ->
  exists st',
    on_click popen self event st = (Ok tt, st')
    /\ (displayed st' = horizontal_icon self
        \/ displayed st' = vertical_icon self)
    /\ (displayed st = horizontal_icon self ->
        displayed st' = vertical_icon self)
    /\ (displayed st <> horizontal_icon self ->
        displayed st' = horizontal_icon self)
    /\ world st' = world st /\ calls st' = calls st.
Proof.
  intros Hb Hin. rewrite (on_click_switch _ _ _ Hb Hin).
  eexists. split; [reflexivity|]. simpl.
  destruct (String.eqb_spec (displayed st) (horizontal_icon self)) as [He|Hne].
  - repeat split; auto. intros Hc. contradiction.
  - repeat split; auto. intros Hc. contradiction.
Qed.

(** C9. A click with a button other than 1, 3, 4 and 5 returns normally
    and leaves the whole state as it was: [displayed], the world, and the
    trace of commands, to which nothing is added. *)
Theorem on_click_other_button event button st :
  event !! "button" = Some button ->
  button <> 1 -> button <> 3 -> button <> 4 -> button <> 5 ->
  on_click popen self event st = (Ok tt, st).
Proof.
  intros Hb H1 H3 H4 H5. rewrite (on_click_button _ _ _ Hb).
  apply Z.eqb_neq in H1, H3, H4, H5. rewrite H1, H3, H4, H5. reflexivity.
Qed.

(** C10, as the code has it. From an empty [displayed], a click with
    button 1, 4 or 5 sets [displayed] to the horizontal icon when that
    icon is not itself the empty string; when it is, the empty field
    already equals the horizontal icon and the click sets the vertical
    one. *)
Theorem on_click_from_empty event button st :
  displayed st = "" ->
  event !! "button" = Some button ->
  button = 1 \/ button = 4 \/ button = 5 ->
  exists st',
    on_click popen self event st = (Ok tt, st')
    /\ (horizontal_icon self <> "" ->
        displayed st' = horizontal_icon self)
    /\ (horizontal_icon self = "" ->
        displayed st' = vertical_icon self).
Proof.
  intros Hd Hb Hin. rewrite (on_click_switch _ _ _ Hb Hin).
  eexists. split; [reflexivity|]. cbn [displayed]. rewrite Hd.
  destruct (String.eqb_spec "" (horizontal_icon self)) as [He|Hne].
  - split; [intros Hc; congruence | reflexivity].
  - split; [reflexivity | intros Hc; congruence].
Qed.

(** *** Applying the selection *)

(** The body of the loop of lines 89-91, for the keyword [rotation]. *)
Lemma rotate_one_run rotation name st :
  Py.has_nul rotation = false ->
  Py.has_nul name = false ->
  bind (lift (rotate_of (Str name) rotation))
       (fun cmd => bind (_call popen cmd) (fun _ => ret tt)) st
  = (Ok tt,
     {| displayed := displayed st;
        world := snd (popen (rotate_cmd name rotation) (world st));
        calls := calls st ++ [rotate_cmd name rotation] |}).
Proof.
  intros Hr Hn. unfold bind, lift, ret. cbn [rotate_of].
  rewrite call_run; [reflexivity|].
  rewrite has_nul_rotate_cmd, Hr, Hn. reflexivity.
Qed.

Lemma rotate_one_refused rotation name st :
  Py.has_nul name = true ->
  bind (lift (rotate_of (Str name) rotation))
       (fun cmd => bind (_call popen cmd) (fun _ => ret tt)) st
  = (Raise ValueError, st).
Proof.
  intros Hn. unfold bind, lift, ret. cbn [rotate_of].
  rewrite call_refused; [reflexivity|].
  rewrite has_nul_rotate_cmd, Hn. reflexivity.
Qed.

(** A loop over names its body accepts adds one command per name, in
    order; at the first element its body refuses the loop ends with that
    exception, after the commands of the names before it. *)
Lemma for_each_trace (body : value -> M unit) (f : string -> string)
      names st :
  (forall name st0, In name names ->
     exists w', body (Str name) st0
                = (Ok tt, {| displayed := displayed st0;
                             world := w';
                             calls := calls st0 ++ [f name] |})) ->
  exists w',
    for_each (map Str names) body st
    = (Ok tt, {| displayed := displayed st;
                 world := w';
                 calls := calls st ++ map f names |}).
Proof.
  revert st. induction names as [|name rest IH]; intros st Hbody.
  - exists (world st). simpl. unfold ret. rewrite app_nil_r.
    destruct st; reflexivity.
  - cbn [for_each map]. unfold bind.
    destruct (Hbody name st (or_introl eq_refl)) as [w1 ->].
    destruct (IH {| displayed := displayed st; world := w1;
                    calls := calls st ++ [f name] |}) as [w2 ->].
    { intros n st0 Hin. apply Hbody. right. exact Hin. }
    exists w2. cbn [displayed calls]. rewrite <- app_assoc. reflexivity.
Qed.

Lemma for_each_stops (body : value -> M unit) (f : string -> string)
      good bad rest e st :
  (forall name st0, In name good ->
     exists w', body (Str name) st0
                = (Ok tt, {| displayed := displayed st0;
                             world := w';
                             calls := calls st0 ++ [f name] |})) ->
  (forall st0, body bad st0 = (Raise e, st0)) ->
  exists w',
    for_each (map Str good ++ bad :: rest) body st
    = (Raise e, {| displayed := displayed st;
                   world := w';
                   calls := calls st ++ map f good |}).
Proof.
  revert st. induction good as [|name good IH]; intros st Hbody Hbad.
  - exists (world st). cbn [map app for_each]. unfold bind.
    rewrite Hbad. rewrite app_nil_r. destruct st; reflexivity.
  - cbn [for_each map app]. unfold bind at 1.
    destruct (Hbody name st (or_introl eq_refl)) as [w1 ->].
    destruct (IH {| displayed := displayed st; world := w1;
                    calls := calls st ++ [f name] |}) as [w2 ->].
    { intros n st0 Hin. apply Hbody. right. exact Hin. }
    { exact Hbad. }
    exists w2. cbn [displayed calls]. rewrite <- app_assoc. reflexivity.
Qed.

(** [_apply] up to its loop. *)
Lemma apply_unfold st :
  _apply popen self st
  = bind (match screen self with
          | Some s => if Py.truthy s then ret [Str s]
                      else _get_all_outputs popen
          | None => _get_all_outputs popen
          end)
         (fun outputs =>
            for_each outputs
              (fun output =>
                 bind (lift (rotate_of output
                               (if String.eqb (displayed st)
                                              (horizontal_icon self)
                                then horizontal_rotation self
                                else vertical_rotation self)))
                      (fun cmd => bind (_call popen cmd) (fun _ => ret tt))))
         st.
Proof. reflexivity. Qed.

Lemma apply_targets st :
  (match screen self with
   | Some s => if Py.truthy s then ret [Str s] else _get_all_outputs popen
   | None => _get_all_outputs popen
   end) st
  = if Py.truthy_opt (screen self)
    then (Ok (map Str (option_list (screen self))), st)
    else _get_all_outputs popen st.
Proof.
  unfold Py.truthy_opt. destruct (screen self) as [s|]; [|reflexivity].
  destruct (Py.truthy s); reflexivity.
Qed.

(** The keyword [_apply] sends, read off [displayed]. *)
Lemma chosen_rotation st rotation :
  (displayed st = horizontal_icon self /\ rotation = horizontal_rotation self)
  \/ (displayed st <> horizontal_icon self
      /\ rotation = vertical_rotation self) ->
  (if String.eqb (displayed st) (horizontal_icon self)
   then horizontal_rotation self else vertical_rotation self) = rotation.
Proof.
  intros [[He ->] | [Hne ->]].
  - rewrite He, String.eqb_refl. reflexivity.
  - apply String.eqb_neq in Hne. rewrite Hne. reflexivity.
Qed.

(** [_apply] when every target is text without NUL and so is the keyword
    chosen. *)
Lemma apply_good st names :
  (exists s, screen self = Some s /\ s <> "" /\ names = [s])
  \/ (Py.truthy_opt (screen self) = false
      /\ enumerated popen (world st) = map Str names) ->
  let rotation := if String.eqb (displayed st) (horizontal_icon self)
                  then horizontal_rotation self
                  else vertical_rotation self in
  Py.has_nul rotation = false ->
  (forall name, In name names -> Py.has_nul name = false) ->
  exists w',
    _apply popen self st
    = (Ok tt,
       {| displayed := displayed st;
          world := w';
          calls := calls st
                   ++ (if Py.truthy_opt (screen self) then [] else [list_cmd])
                   ++ map (fun name => rotate_cmd name rotation) names |}).
Proof.
  intros Htargets rotation Hr Hnames.
  pose (body := fun output : value =>
                  bind (lift (rotate_of output rotation))
                       (fun cmd => bind (_call popen cmd)
                                        (fun _ => @ret Ext unit tt))).
  assert (Hbody : forall name (st0 : State Ext), In name names ->
            exists w',
              body (Str name) st0
              = (Ok tt, {| displayed := displayed st0; world := w';
                           calls := calls st0
                                    ++ [rotate_cmd name rotation] |})).
  { intros name st0 Hin. eexists.
    apply rotate_one_run; [exact Hr | exact (Hnames name Hin)]. }
  rewrite apply_unfold. fold rotation. fold body.
  unfold bind at 1. rewrite apply_targets.
  destruct Htargets as [(s & Hs & Hne & ->) | [Hnone Henum]].
  - rewrite Hs. cbn [Py.truthy_opt].
    apply truthy_spec in Hne. rewrite Hne.
    change (map Str (option_list (Some s))) with [Str s].
    destruct (for_each_trace body _ [s] st Hbody) as [w' Hloop].
    cbn [map] in Hloop. rewrite Hloop.
    eexists. reflexivity.
  - rewrite Hnone, get_all_outputs_run, Henum.
    match goal with
    | |- context [for_each _ _ ?s0] =>
        destruct (for_each_trace body _ names s0 Hbody) as [w' Hloop]
    end.
    rewrite Hloop. eexists. cbn [calls displayed].
    rewrite <- app_assoc. reflexivity.
Qed.

(** [_apply] when the enumeration holds a name that cannot be passed on. *)
Lemma apply_stops st good bad rest e :
  Py.truthy_opt (screen self) = false ->
  enumerated popen (world st) = map Str good ++ bad :: rest ->
  let rotation := if String.eqb (displayed st) (horizontal_icon self)
                  then horizontal_rotation self
                  else vertical_rotation self in
  Py.has_nul rotation = false ->
  (forall name, In name good -> Py.has_nul name = false) ->
  (exists name, bad = Str name /\ Py.has_nul name = true /\ e = ValueError)
  \/ (exists b, bad = Bytes b /\ e = TypeError) ->
  exists w',
    _apply popen self st
    = (Raise e,
       {| displayed := displayed st;
          world := w';
          calls := calls st ++ list_cmd
                   :: map (fun name => rotate_cmd name rotation) good |}).
Proof.
  intros Hnone Henum rotation Hr Hgood Hbad.
  pose (body := fun output : value =>
                  bind (lift (rotate_of output rotation))
                       (fun cmd => bind (_call popen cmd)
                                        (fun _ => @ret Ext unit tt))).
  assert (Hbody : forall name (st0 : State Ext), In name good ->
            exists w',
              body (Str name) st0
              = (Ok tt, {| displayed := displayed st0; world := w';
                           calls := calls st0
                                    ++ [rotate_cmd name rotation] |})).
  { intros name st0 Hin. eexists.
    apply rotate_one_run; [exact Hr | exact (Hgood name Hin)]. }
  assert (Hrefused : forall st0 : State Ext, body bad st0 = (Raise e, st0)).
  { intros st0. destruct Hbad as [(name & -> & Hn & ->) | (b & -> & ->)].
    - apply rotate_one_refused. exact Hn.
    - reflexivity. }
  rewrite apply_unfold. fold rotation. fold body.
  unfold bind at 1. rewrite apply_targets, Hnone, get_all_outputs_run, Henum.
  match goal with
  | |- context [for_each _ _ ?s0] =>
      destruct (for_each_stops body _ good bad rest e s0 Hbody Hrefused)
        as [w' Hloop]
  end.
  rewrite Hloop. eexists. cbn [calls displayed].
  rewrite <- app_assoc. reflexivity.
Qed.

(** C8, as the code has it. A click with button 3 sends the horizontal
    rotation keyword when [displayed] is the horizontal icon and the
    vertical keyword in every other case; the empty [displayed] is such a
    case when the horizontal icon is not itself empty. The targets are the
    configured screen when a non-empty name is set, and otherwise the outputs that a
    fresh enumeration yields. When the names of the targets are text
    without a NUL character, and so is the keyword, the click returns
    normally, leaves [displayed] alone and runs, after the enumeration if
    there is one, exactly one command
    [xrandr --output NAME --rotate KEYWORD] per target, in order. *)
Theorem on_click_apply event st rotation names :
  event !! "button" = Some 3 ->
  (displayed st = horizontal_icon self /\ rotation = horizontal_rotation self)
  \/ (displayed st <> horizontal_icon self
      /\ rotation = vertical_rotation self)
  \/ (displayed st = "" /\ horizontal_icon self <> ""
      /\ rotation = vertical_rotation self) ->
  (exists s, screen self = Some s /\ s <> "" /\ names = [s])
  \/ (Py.truthy_opt (screen self) = false
      /\ enumerated popen (world st) = map Str names) ->
  Py.has_nul rotation = false ->
  (forall name, In name names -> Py.has_nul name = false) ->
  let q := String "034"%char EmptyString in
  exists st',
    on_click popen self event st = (Ok tt, st')
    /\ displayed st' = displayed st
    /\ calls st'
       = calls st
         ++ (if Py.truthy_opt (screen self) then []
             else ["xrandr -q | grep " +:+ q +:+ " connected [^(]" +:+ q
                   +:+ " | cut -d " +:+ q +:+ " " +:+ q +:+ " -f1"])
         ++ map (fun name =>
                   "xrandr --output " +:+ name +:+ " --rotate " +:+ rotation)
                names.
Proof.
  intros Hb Hrot Htargets Hr Hnames q.
  assert (Hchosen : (if String.eqb (displayed st) (horizontal_icon self)
                     then horizontal_rotation self
                     else vertical_rotation self) = rotation).
  { apply chosen_rotation. destruct Hrot as [H | [H | (Hd & Hh & ->)]];
      [left; exact H | right; exact H |].
    right. split; [congruence | reflexivity]. }
  subst q. destruct (apply_good st names Htargets) as [w' Hrun].
  { rewrite Hchosen. exact Hr. }
  { exact Hnames. }
  rewrite (on_click_right _ _ Hb), Hrun, Hchosen.
  eexists. split; [reflexivity|]. split; reflexivity.
Qed.


(** ** Further properties of the methods *)

(** *** Clicks *)

(** X1. A click event without a [button] entry raises [KeyError] for that
    key before anything is done: the state is left as it was. *)
Theorem on_click_missing_button event st :
  event !! "button" = None ->
  on_click popen self event st = (Raise (KeyError "button"), st).
Proof.
  intros Hb. unfold on_click, bind, lift, Py.getitem. rewrite Hb. reflexivity.
Qed.

(** X2. Where a click with button 3 stops. With no screen configured and
    a keyword without NUL, the loop over the enumerated outputs ends at the
    first name it cannot hand to the shell, and the click raises there,
    after the rotation commands of the names before it and with
    [displayed] as it was: [ValueError] at a name that holds a NUL
    character, and [TypeError] at once when the enumeration is bytes. The
    outputs after that name are not rotated. *)
Theorem on_click_apply_stops event st rotation :
  event !! "button" = Some 3 ->
  (displayed st = horizontal_icon self /\ rotation = horizontal_rotation self)
  \/ (displayed st <> horizontal_icon self
      /\ rotation = vertical_rotation self) ->
  Py.has_nul rotation = false ->
  Py.truthy_opt (screen self) = false ->
  let q := String "034"%char EmptyString in
  let enumeration :=
    "xrandr -q | grep " +:+ q +:+ " connected [^(]" +:+ q
    +:+ " | cut -d " +:+ q +:+ " " +:+ q +:+ " -f1" in
  (forall good bad rest,
     enumerated popen (world st) = map Str (good ++ bad :: rest) ->
     (forall name, In name good -> Py.has_nul name = false) ->
     Py.has_nul bad = true ->
     exists st',
       on_click popen self event st = (Raise ValueError, st')
       /\ displayed st' = displayed st
       /\ calls st'
          = calls st ++ enumeration
            :: map (fun name =>
                      "xrandr --output " +:+ name +:+ " --rotate " +:+ rotation)
                   good)
  /\ (forall b rest,
        enumerated popen (world st) = Bytes b :: rest ->
        exists st',
          on_click popen self event st = (Raise TypeError, st')
          /\ displayed st' = displayed st
          /\ calls st' = calls st ++ [enumeration]).
Proof.
  intros Hb Hrot Hr Hnone q enumeration. subst q enumeration.
  pose proof (chosen_rotation st rotation Hrot) as Hc.
  rewrite (on_click_right _ _ Hb). split.
  - intros good bad rest Henum Hgood Hbad.
    rewrite map_app in Henum. cbn [map] in Henum.
    destruct (apply_stops st good (Str bad) (map Str rest) ValueError
                Hnone Henum) as [w' Hrun].
    { rewrite Hc. exact Hr. }
    { exact Hgood. }
    { left. exists bad. auto. }
    rewrite Hrun, Hc. eexists. split; [reflexivity|]. split; reflexivity.
  - intros b rest Henum.
    destruct (apply_stops st [] (Bytes b) rest TypeError Hnone Henum)
      as [w' Hrun].
    { rewrite Hc. exact Hr. }
    { intros name []. }
    { right. exists b. auto. }
    rewrite Hrun. eexists. split; [reflexivity|]. split; reflexivity.
Qed.

(** X3. When the two icons differ and [displayed] is one of them, two
    toggling clicks in a row bring the whole state back to what it was. *)
Theorem on_click_twice event1 event2 button1 button2 st :
  horizontal_icon self <> vertical_icon self ->
  displayed st = horizontal_icon self \/ displayed st = vertical_icon self ->
  event1 !! "button" = Some button1 ->
  button1 = 1 \/ button1 = 4 \/ button1 = 5 ->
  event2 !! "button" = Some button2 ->
  button2 = 1 \/ button2 = 4 \/ button2 = 5 ->
  snd (on_click popen self event2 (snd (on_click popen self event1 st))) = st.
Proof.
  intros Hne Hd Hb1 Hin1 Hb2 Hin2.
  rewrite (on_click_switch _ _ _ Hb1 Hin1). cbn [snd].
  rewrite (on_click_switch _ _ _ Hb2 Hin2). cbn [snd displayed world calls].
  destruct st as [d w c]. cbn [displayed world calls] in *. f_equal.
  destruct Hd as [-> | ->].
  - rewrite String.eqb_refl.
    destruct (String.eqb_spec (vertical_icon self) (horizontal_icon self));
      congruence.
  - destruct (String.eqb_spec (vertical_icon self) (horizontal_icon self));
      [congruence|].
    rewrite String.eqb_refl. reflexivity.
Qed.

(** X4. A toggling click followed by a click with button 3, the icons being
    different and the targets and the keyword being text without NUL. The
    keyword sent is the one opposite to the selection shown before the
    first click: the vertical keyword if [displayed] was the horizontal
    icon, the horizontal keyword otherwise. From the empty [displayed]
    that is the horizontal keyword when the horizontal icon is not empty,
    and the vertical keyword when it is. [displayed] ends as the vertical
    icon if it was the horizontal one and as the horizontal icon otherwise,
    and the commands run are one
    [xrandr --output NAME --rotate KEYWORD] per target, after the
    enumeration when no screen is configured. *)
Theorem on_click_toggle_then_apply event1 button1 event3 st rotation names :
  horizontal_icon self <> vertical_icon self ->
  event1 !! "button" = Some button1 ->
  button1 = 1 \/ button1 = 4 \/ button1 = 5 ->
  event3 !! "button" = Some 3 ->
  (displayed st = horizontal_icon self /\ rotation = vertical_rotation self)
  \/ (displayed st <> horizontal_icon self
      /\ rotation = horizontal_rotation self)
  \/ (displayed st = "" /\ horizontal_icon self <> ""
      /\ rotation = horizontal_rotation self)
  \/ (displayed st = "" /\ horizontal_icon self = ""
      /\ rotation = vertical_rotation self) ->
  (exists s, screen self = Some s /\ s <> "" /\ names = [s])
  \/ (Py.truthy_opt (screen self) = false
      /\ enumerated popen (world st) = map Str names) ->
  Py.has_nul rotation = false ->
  (forall name, In name names -> Py.has_nul name = false) ->
  let st1 := snd (on_click popen self event1 st) in
  let q := String "034"%char EmptyString in
  exists st3,
    on_click popen self event3 st1 = (Ok tt, st3)
    /\ displayed st3
       = (if String.eqb (displayed st) (horizontal_icon self)
          then vertical_icon self else horizontal_icon self)
    /\ calls st3
       = calls st
         ++ (if Py.truthy_opt (screen self) then []
             else ["xrandr -q | grep " +:+ q +:+ " connected [^(]" +:+ q
                   +:+ " | cut -d " +:+ q +:+ " " +:+ q +:+ " -f1"])
         ++ map (fun name =>
                   "xrandr --output " +:+ name +:+ " --rotate " +:+ rotation)
                names.
Proof.
  intros Hne Hb1 Hin1 Hb3 Hrot Htargets Hr Hnames st1 q. subst st1 q.
  rewrite (on_click_switch _ _ _ Hb1 Hin1). cbn [snd].
  set (st1 := {| displayed := if String.eqb (displayed st) (horizontal_icon self)
                              then vertical_icon self else horizontal_icon self;
                 world := world st; calls := calls st |}).
  assert (Hsel : (displayed st = horizontal_icon self
                  /\ rotation = vertical_rotation self)
                 \/ (displayed st <> horizontal_icon self
                     /\ rotation = horizontal_rotation self)).
  { destruct Hrot as [H | [H | [(Hd & Hh & ->) | (Hd & Hh & ->)]]];
      [left; exact H | right; exact H | right | left]; split; congruence. }
  assert (Hchosen : (if String.eqb (displayed st1) (horizontal_icon self)
                     then horizontal_rotation self
                     else vertical_rotation self) = rotation
                    /\ displayed st1
                       = (if String.eqb (displayed st) (horizontal_icon self)
                          then vertical_icon self else horizontal_icon self)).
  { split; [|reflexivity]. subst st1. cbn [displayed].
    destruct Hsel as [[He ->] | [Hd ->]].
    - rewrite He, String.eqb_refl.
      destruct (String.eqb_spec (vertical_icon self) (horizontal_icon self));
        congruence.
    - apply String.eqb_neq in Hd. rewrite Hd, String.eqb_refl. reflexivity. }
  destruct Hchosen as [Hchosen Hd1].
  destruct (apply_good st1 names Htargets) as [w' Hrun].
  { rewrite Hchosen. exact Hr. }
  { exact Hnames. }
  rewrite (on_click_right _ _ Hb3), Hrun, Hchosen.
  eexists. split; [reflexivity|]. cbn [displayed calls].
  split; [exact Hd1 | reflexivity].
Qed.

(** *** The invariant of [displayed] *)

Lemma render_keeps_invariant now i3s_config st :
  displayed_ok self st ->
  displayed_ok self
    (snd (xrandr_rotate popen str_format self now i3s_config st)).
Proof.
  intros Hok.
  change (wp (xrandr_rotate popen str_format self now i3s_config)
             (fun _ st' => displayed_ok self st') st).
  unfold displayed_ok in *.
  wp_run; cbn [displayed]; auto;
    match goal with |- context [is_horizontal ?d] => destruct (is_horizontal d) end;
    auto.
Qed.

Lemma for_each_displayed (body : value -> M unit) outputs : forall st,
  (forall output st0, displayed (snd (body output st0)) = displayed st0) ->
  displayed (snd (for_each outputs body st)) = displayed st.
Proof.
  induction outputs as [|o rest IH]; intros st Hbody; [reflexivity|].
  cbn [for_each]. unfold bind. pose proof (Hbody o st) as Ho.
  destruct (body o st) as [[u|e] st1]; cbn [snd] in Ho |- *.
  - rewrite (IH st1 Hbody). exact Ho.
  - exact Ho.
Qed.

Lemma apply_displayed st :
  displayed (snd (_apply popen self st)) = displayed st.
Proof.
  rewrite apply_unfold. unfold bind at 1. rewrite apply_targets.
  assert (Hbody : forall rotation output (st0 : State Ext),
            displayed (snd (bind (lift (rotate_of output rotation))
                              (fun cmd => bind (_call popen cmd)
                                               (fun _ => ret tt)) st0))
            = displayed st0).
  { intros rotation [name|b] st0; [|reflexivity].
    unfold bind, lift, ret. cbn [rotate_of].
    destruct (Py.has_nul (rotate_cmd name rotation)) eqn:Hn.
    - rewrite (call_refused _ _ Hn). reflexivity.
    - rewrite (call_run _ _ Hn). reflexivity. }
  destruct (Py.truthy_opt (screen self)).
  - apply for_each_displayed. apply Hbody.
  - rewrite get_all_outputs_run.
    rewrite for_each_displayed by apply Hbody. reflexivity.
Qed.

Lemma click_keeps_invariant event st :
  displayed_ok self st ->
  displayed_ok self (snd (on_click popen self event st)).
Proof.
  intros Hok. destruct (event !! "button") as [button|] eqn:Hb.
  - rewrite (on_click_button _ _ _ Hb).
    destruct ((button =? 1) || (button =? 4) || (button =? 5)).
    + rewrite switch_selection_run. unfold displayed_ok. cbn [snd displayed].
      destruct (String.eqb (displayed st) (horizontal_icon self)); auto.
    + destruct (button =? 3).
      * unfold displayed_ok. rewrite apply_displayed. exact Hok.
      * exact Hok.
  - unfold on_click, bind, lift, Py.getitem. rewrite Hb. exact Hok.
Qed.

Lemma step_keeps_invariant c st :
  displayed_ok self st ->
  displayed_ok self (step popen str_format self c st).
Proof.
  destruct c as [event | now i3s_config]; cbn [step].
  - apply click_keeps_invariant.
  - apply render_keeps_invariant.
Qed.

Lemma run_keeps_invariant cs st :
  displayed_ok self st ->
  displayed_ok self (run popen str_format self cs st).
Proof.
  revert st. induction cs as [|c cs IH]; intros st Hok.
  - exact Hok.
  - cbn [run fold_left]. apply IH, step_keeps_invariant, Hok.
Qed.

(** C6. [displayed] is empty at construction, and after any sequence of
    clicks and renderings, whether they return or raise, it is the empty
    string, the horizontal icon or the vertical icon. *)
Theorem displayed_invariant (cs : list Call) (w : Ext) :
  displayed (init w) = ""
  /\ (let st := run popen str_format self cs (init w) in
      displayed st = "" \/ displayed st = horizontal_icon self
      \/ displayed st = vertical_icon self).
Proof.
  split; [reflexivity|].
  apply (run_keeps_invariant cs (init w)). left. reflexivity.
Qed.

(** *** Rendering twice *)

(** C7. While the tool keeps answering alike, a rendering followed at once
    by a second rendering gives the host the same text and the same colour
    tag, present or absent, both times; if the first one raises, the
    second raises the same exception. The time stamps may differ. *)
Theorem render_twice now1 now2 i3s_config st :
  stable popen (world st) ->
  let first := xrandr_rotate popen str_format self now1 i3s_config st in
  let second := xrandr_rotate popen str_format self now2 i3s_config (snd first) in
  shown (fst second) = shown (fst first).
Proof.
  intros Hst first second. subst first second. unfold stable in Hst.
  change (wp (xrandr_rotate popen str_format self now1 i3s_config)
            (fun r1 st1 =>
               wp (xrandr_rotate popen str_format self now2 i3s_config)
                  (fun r2 _ => shown r2 = shown r1) st1) st).
  repeat (wp_step; rewrite ?Hst; settle).
  all: try reflexivity.
  all: congruence.
Qed.

(** *** Scenarios *)

Lemma getitem_ok {V} (d : gmap string V) key v :
  d !! key = Some v -> Py.getitem d key = Ok v.
Proof. intros H. unfold Py.getitem. rewrite H. reflexivity. Qed.

Lemma getitem_lookup {V} (d : gmap string V) key v :
  Py.getitem d key = Ok v -> d !! key = Some v.
Proof.
  unfold Py.getitem. destruct (d !! key); [intros [= ->]; reflexivity|].
  discriminate.
Qed.

(** C2, as the code has it. With [screen] set to [VGA1], only [eDP1]
    enumerated, hiding off, [displayed] empty and the default icons, the
    rendering first asks the tool for the rotation of [VGA1]. When the
    answer is text, [displayed] is filled with its icon, [H] or [V]; the
    text is the template with that icon, not the fallback glyph, for
    [{icon}] and [VGA1] for [{screen}]; the colour is the degraded one.
    When the answer does not decode, the rendering raises [TypeError]. *)
Theorem render_disconnected_shown now i3s_config st degraded :
  screen self = Some "VGA1" ->
  hide_if_disconnected self = false ->
  horizontal_icon self = "H" ->
  vertical_icon self = "V" ->
  displayed st = "" ->
  enumerated popen (world st) = [Str "eDP1"] ->
  i3s_config !! "color_degraded" = Some degraded ->
  (forall d,
     descriptor popen "VGA1" (snd (popen list_cmd (world st))) = Str d ->
     let icon := if is_horizontal d then "H" else "V" in
     (icon = "H" \/ icon = "V") /\ icon <> "?"
     /\ forall text,
          str_format (format self) icon (Str "VGA1") = Ok text ->
          exists st',
            xrandr_rotate popen str_format self now i3s_config st
            = (Ok {| cached_until := now + cache_timeout self;
                     full_text := text;
                     color := Some degraded |}, st')
            /\ displayed st' = icon)
  /\ (forall b,
        descriptor popen "VGA1" (snd (popen list_cmd (world st))) = Bytes b ->
        fst (xrandr_rotate popen str_format self now i3s_config st)
        = Raise TypeError).
Proof.
  intros Hscreen Hhide Hh Hv Hd Houts Hcol.
  assert (Hget : Py.getitem i3s_config "color_degraded" = Ok degraded)
    by (apply getitem_ok; exact Hcol).
  assert (Hnul : Py.has_nul (query_cmd "VGA1") = false) by reflexivity.
  unfold descriptor. split.
  - intros d Hdesc.
    destruct (is_horizontal d) eqn:Hhor; cbv zeta;
      (split; [auto|]); (split; [discriminate|]); intros text Htext.
    all: match goal with
         | |- exists st', _ = (Ok ?r, st') /\ displayed st' = ?icon =>
             assert (Hwp : wp (xrandr_rotate popen str_format self now
                                 i3s_config)
                             (fun r0 st' => r0 = Ok r /\ displayed st' = icon)
                             st)
         end.
    1, 3: repeat (wp_step; settle; concrete);
      unfold screen_label in *; rewrite ?Hscreen in *;
      cbn [Py.truthy String.eqb negb cached_until] in *;
      solve [congruence | split; [congruence | reflexivity]].
    all: apply wp_elim in Hwp; destruct Hwp as (r & st' & Hrun & -> & Hdisp);
      exists st'; split; assumption.
  - intros b Hdesc.
    change (wp (xrandr_rotate popen str_format self now i3s_config)
               (fun r _ => r = Raise TypeError) st).
    repeat (wp_step; settle; concrete).
    all: congruence.
Qed.

(** C3, the failing input. With no screen configured, [displayed] empty
    and no output enumerated, the rendering raises [IndexError]: the icon
    query indexes the empty list. *)
Theorem render_no_outputs_raises now i3s_config st :
  screen self = None ->
  displayed st = "" ->
  enumerated popen (world st) = [] ->
  fst (xrandr_rotate popen str_format self now i3s_config st)
  = Raise IndexError.
Proof.
  intros Hscreen Hd Houts.
  change (wp (xrandr_rotate popen str_format self now i3s_config)
             (fun r _ => r = Raise IndexError) st).
  repeat (wp_step; settle; concrete). reflexivity.
Qed.

(** The parts of the label rule that hold: with exactly one output
    enumerated the label is the configured screen, or that output when
    none is configured; with no screen and any other number of outputs
    it is [ALL]. *)
Lemma screen_label_single (s : string) (o : value) :
  screen self = Some s -> s <> "" -> screen_label self [o] = Str s.
Proof.
  intros Hs Hne. unfold screen_label. rewrite Hs.
  apply truthy_spec in Hne. rewrite Hne. reflexivity.
Qed.

Lemma screen_label_detected (o : value) :
  Py.truthy_opt (screen self) = false -> screen_label self [o] = o.
Proof.
  unfold screen_label, Py.truthy_opt.
  destruct (screen self) as [s|]; [intros ->|]; reflexivity.
Qed.

Lemma screen_label_all all_outputs :
  length all_outputs <> 1%nat -> screen_label self all_outputs = Str "ALL".
Proof.
  unfold screen_label. destruct all_outputs as [|o [|o' rest]]; simpl;
    [reflexivity | intros H; contradiction | reflexivity].
Qed.

(** *** Rendering *)

(** X5. The hidden branch. If the configured screen is not among the
    outputs and hiding is on, the rendering empties [displayed], whatever
    was selected before; if it returns, the text is empty, and with two
    non-empty icons no colour is set. *)
Theorem render_hidden now i3s_config st s :
  screen self = Some s ->
  Py.contains_value (enumerated popen (world st)) (Str s) = false ->
  hide_if_disconnected self = true ->
  horizontal_icon self <> "" ->
  vertical_icon self <> "" ->
  let result := xrandr_rotate popen str_format self now i3s_config st in
  displayed (snd result) = ""
  /\ forall response, fst result = Ok response ->
       full_text response = "" /\ color response = None.
Proof.
  intros Hs Hc Hh Hhi Hvi result. subst result.
  apply String.eqb_neq in Hhi, Hvi.
  change (wp (xrandr_rotate popen str_format self now i3s_config)
             (fun r st' =>
                displayed st' = ""
                /\ forall response, r = Ok response ->
                     full_text response = "" /\ color response = None) st).
  repeat (wp_step; settle; concrete).
  all: split; [reflexivity|]; intros response [= <-];
    cbn [full_text color]; (split; [reflexivity|]); try reflexivity.
  all: exfalso;
    match goal with
    | H : context [is_horizontal ?d] |- _ => destruct (is_horizontal d)
    end.
  all: try (destruct (horizontal_icon self); discriminate).
  all: try (destruct (vertical_icon self); discriminate).
Qed.

(** X6. When it can return. Suppose the tool prints text that decodes, a
    non-empty screen name without NUL is configured or else the tool
    enumerates some output and the name of the first has no NUL, the
    template formats whatever icon
    and label it is given, and the host supplies both colours. Then the
    rendering returns a response: no exception reaches the host. *)
Theorem render_returns now i3s_config st :
  (forall cmd w, exists text, fst (popen cmd w) = Str text) ->
  (exists s, screen self = Some s /\ s <> "" /\ Py.has_nul s = false)
  \/ (Py.truthy_opt (screen self) = false
      /\ exists o rest, enumerated popen (world st) = Str o :: rest
                        /\ Py.has_nul o = false) ->
  (forall icon label, exists text,
      str_format (format self) icon label = Ok text) ->
  is_Some (i3s_config !! "color_good") ->
  is_Some (i3s_config !! "color_degraded") ->
  exists response,
    fst (xrandr_rotate popen str_format self now i3s_config st) = Ok response.
Proof.
  intros Hdec Htarget Hfmt [good Hgood%getitem_ok] [degraded Hdeg%getitem_ok].
  assert (Htext : forall cmd w b,
            Py.strip_value (fst (popen cmd w)) = Bytes b -> False).
  { intros cmd w b H. destruct (Hdec cmd w) as [t Ht].
    rewrite Ht in H. discriminate. }
  change (wp (xrandr_rotate popen str_format self now i3s_config)
             (fun r _ => exists response, r = Ok response) st).
  destruct Htarget as [(s & Hs & Hne%truthy_spec & Hn)
                      | (Hnone & o & rest & Ho & Hn)].
  - repeat (wp_step; settle; concrete).
    all: try (eexists; reflexivity).
    all: try match goal with
             | H : str_format (format self) ?i ?l = Raise _ |- _ =>
                 destruct (Hfmt i l) as [text Ht]; congruence
             end.
    all: try match goal with
             | H : Py.strip_value _ = Bytes _ |- _ =>
                 exfalso; exact (Htext _ _ _ H)
             end.
    all: try congruence.
    all: rewrite has_nul_query_cmd in *; congruence.
  - unfold Py.truthy_opt in Hnone.
    repeat (wp_step; settle; concrete).
    all: try (eexists; reflexivity).
    all: try match goal with
             | H : str_format (format self) ?i ?l = Raise _ |- _ =>
                 destruct (Hfmt i l) as [text Ht]; congruence
             end.
    all: try match goal with
             | H : Py.strip_value _ = Bytes _ |- _ =>
                 exfalso; exact (Htext _ _ _ H)
             end.
    all: try congruence.
    all: rewrite ?has_nul_query_cmd in *; congruence.
Qed.

Lemma rotate_is_no_query output rotation :
  rotate_cmd output rotation <> list_cmd
  /\ forall target, rotate_cmd output rotation <> query_cmd target.
Proof.
  split; [|intros target]; intros H; vm_compute in H; congruence.
Qed.

(** X7. What a rendering runs. Every rendering runs the enumeration first
    and then at most two rotation queries, and nothing else: between one
    and three commands, none of them a rotation command. *)
Theorem render_only_queries now i3s_config st :
  exists queries,
    calls (snd (xrandr_rotate popen str_format self now i3s_config st))
    = calls st ++ list_cmd :: queries
    /\ (length queries <= 2)%nat
    /\ (forall cmd, In cmd queries -> exists target, cmd = query_cmd target)
    /\ (forall cmd output rotation,
          In cmd (list_cmd :: queries) -> cmd <> rotate_cmd output rotation).
Proof.
  assert (Hpost : forall queries,
    (length queries <= 2)%nat ->
    (forall cmd, In cmd queries -> exists target, cmd = query_cmd target) ->
    (length queries <= 2)%nat
    /\ (forall cmd, In cmd queries -> exists target, cmd = query_cmd target)
    /\ (forall cmd output rotation,
          In cmd (list_cmd :: queries) -> cmd <> rotate_cmd output rotation)).
  { intros queries Hlen Hq. split; [exact Hlen|]. split; [exact Hq|].
    intros cmd output rotation [<- | Hin] Heq.
    - apply (proj1 (rotate_is_no_query output rotation)). congruence.
    - destruct (Hq cmd Hin) as [target ->].
      apply (proj2 (rotate_is_no_query output rotation) target). congruence. }
  change (wp (xrandr_rotate popen str_format self now i3s_config)
             (fun _ st' =>
                exists queries,
                  calls st' = calls st ++ list_cmd :: queries
                  /\ (length queries <= 2)%nat
                  /\ (forall cmd, In cmd queries ->
                      exists target, cmd = query_cmd target)
                  /\ (forall cmd output rotation,
                        In cmd (list_cmd :: queries) ->
                        cmd <> rotate_cmd output rotation)) st).
  wp_run.
  all: rewrite <- ?app_assoc; cbn [app]; eexists; (split; [reflexivity|]);
    apply Hpost; [cbn [length]; lia|].
  all: cbn [In]; intros cmd Hin; intuition (subst; eauto).
Qed.

(** X8. A selection is kept. Unless the hidden branch is taken, rendering
    with a non-empty [displayed] leaves it as it is and asks the tool
    nothing before formatting: if a response is returned, its text is the
    template filled with the selection made by the clicks, whatever
    rotation the tool reports. *)
Theorem render_keeps_selection now i3s_config st :
  displayed st <> "" ->
  disconnected popen self (world st) && hide_if_disconnected self = false ->
  let result := xrandr_rotate popen str_format self now i3s_config st in
  displayed (snd result) = displayed st
  /\ forall response, fst result = Ok response ->
       str_format (format self) (displayed st)
                  (screen_label self (enumerated popen (world st)))
       = Ok (full_text response).
Proof.
  intros Hd%truthy_spec Hvisible result. subst result.
  unfold disconnected in Hvisible.
  change (wp (xrandr_rotate popen str_format self now i3s_config)
             (fun r st' =>
                displayed st' = displayed st
                /\ forall response, r = Ok response ->
                     str_format (format self) (displayed st)
                       (screen_label self (enumerated popen (world st)))
                     = Ok (full_text response)) st).
  unfold xrandr_rotate. wp_step. wp_step. rewrite Hvisible.
  repeat (wp_step; settle).
  all: split; [reflexivity|]; intros response [= <-]; reflexivity.
Qed.

(** X9. Lazy discovery. Unless the hidden branch is taken, rendering with
    an empty [displayed] asks the tool, right after the enumeration, for
    the rotation of one output: the configured screen when a non-empty
    name is configured, and otherwise the first output enumerated, not any
    later one. When that name is text without NUL and the answer is text,
    [displayed] is set to the icon of the answer; this holds whether the
    rendering then returns or raises while formatting or colouring. *)
Theorem render_discovers now i3s_config st :
  displayed st = "" ->
  disconnected popen self (world st) && hide_if_disconnected self = false ->
  let after := snd (popen list_cmd (world st)) in
  let st' := snd (xrandr_rotate popen str_format self now i3s_config st) in
  let q := String "034"%char EmptyString in
  let enumeration :=
    "xrandr -q | grep " +:+ q +:+ " connected [^(]" +:+ q
    +:+ " | cut -d " +:+ q +:+ " " +:+ q +:+ " -f1" in
  let query name :=
    "xrandr -q | grep " +:+ q +:+ "^" +:+ name +:+ q
    +:+ " | cut -d " +:+ q +:+ " " +:+ q +:+ " -f4" in
  (forall s d,
     screen self = Some s -> s <> "" -> Py.has_nul s = false ->
     descriptor popen s after = Str d ->
     displayed st' = icon_for self d
     /\ exists later, calls st' = calls st ++ enumeration :: query s :: later)
  /\ (forall first rest d,
        Py.truthy_opt (screen self) = false ->
        enumerated popen (world st) = Str first :: rest ->
        Py.has_nul first = false ->
        descriptor popen first after = Str d ->
        displayed st' = icon_for self d
        /\ exists later,
             calls st' = calls st ++ enumeration :: query first :: later).
Proof.
  intros Hd Hvisible after st' q enumeration query.
  subst after st' q enumeration query.
  unfold disconnected in Hvisible. unfold icon_for, descriptor. split.
  - intros s d Hs Hne%truthy_spec Hn Hdesc.
    change (wp (xrandr_rotate popen str_format self now i3s_config)
               (fun _ st' =>
                  displayed st'
                  = (if is_horizontal d then horizontal_icon self
                     else vertical_icon self)
                  /\ exists later,
                       calls st'
                       = calls st ++ list_cmd :: query_cmd s :: later) st).
    unfold xrandr_rotate. wp_step. wp_step. rewrite Hvisible.
    repeat (wp_step; settle; concrete).
    all: rewrite ?has_nul_query_cmd in *; try congruence.
    all: (split; [reflexivity|]).
    all: rewrite <- ?app_assoc; cbn [app]; eexists; reflexivity.
  - intros first rest d Hnone Henum Hn Hdesc. unfold Py.truthy_opt in Hnone.
    change (wp (xrandr_rotate popen str_format self now i3s_config)
               (fun _ st' =>
                  displayed st'
                  = (if is_horizontal d then horizontal_icon self
                     else vertical_icon self)
                  /\ exists later,
                       calls st'
                       = calls st ++ list_cmd :: query_cmd first :: later) st).
    unfold xrandr_rotate. wp_step. wp_step. rewrite Hvisible.
    repeat (wp_step; settle; concrete).
    all: rewrite ?has_nul_query_cmd in *; try congruence.
    all: (split; [reflexivity|]).
    all: rewrite <- ?app_assoc; cbn [app]; eexists; reflexivity.
Qed.

(** X10. The colour of a response, the tool answering alike throughout.
    With the configured screen absent and hiding off, the colour is the
    host's degraded colour, whatever is selected. In every other case the
    output asked about is text, the tool's answer for it has an icon, and
    the colour is the host's good colour exactly when the [displayed] the
    rendering ends with equals that icon; no colour is set when they
    differ. *)
Theorem render_color now i3s_config st response :
  stable popen (world st) ->
  fst (xrandr_rotate popen str_format self now i3s_config st) = Ok response ->
  let st' := snd (xrandr_rotate popen str_format self now i3s_config st) in
  let degraded :=
    disconnected popen self (world st) && negb (hide_if_disconnected self) in
  (degraded = true -> color response = i3s_config !! "color_degraded")
  /\ (degraded = false ->
      exists target icon,
        fst (screen_or_first self (enumerated popen (world st)) st)
        = Ok (Str target)
        /\ icon_of popen self target (world st) = Ok icon
        /\ color response
           = if String.eqb (displayed st') icon
             then i3s_config !! "color_good" else None).
Proof.
  intros Hst Hrun st' degraded. subst st' degraded. revert Hrun.
  unfold stable in Hst. unfold disconnected, icon_of, icon_for, descriptor.
  change (wp (xrandr_rotate popen str_format self now i3s_config)
             (fun r st' =>
                r = Ok response ->
                (match screen self with
                 | Some s =>
                     negb (Py.contains_value (enumerated popen (world st))
                                             (Str s))
                 | None => false
                 end && negb (hide_if_disconnected self) = true ->
                 color response = i3s_config !! "color_degraded")
                /\ (match screen self with
                    | Some s =>
                        negb (Py.contains_value (enumerated popen (world st))
                                                (Str s))
                    | None => false
                    end && negb (hide_if_disconnected self) = false ->
                    exists target icon,
                      fst (screen_or_first self (enumerated popen (world st)) st)
                      = Ok (Str target)
                      /\ match Py.strip_value (fst (popen (query_cmd target)
                                                         (world st))) with
                         | Str d => Ok (if is_horizontal d
                                        then horizontal_icon self
                                        else vertical_icon self)
                         | Bytes _ => Raise TypeError
                         end = Ok icon
                      /\ color response
                         = if String.eqb (displayed st') icon
                           then i3s_config !! "color_good" else None)) st).
  unfold screen_or_first.
  repeat (wp_step; rewrite ?Hst; settle).
  all: intros [= <-]; cbn [color].
  all: split; [intros Hdeg | intros Hdeg]; try discriminate Hdeg.
  all: try (symmetry; apply getitem_lookup; assumption).
  all: eexists _, _; (split; [reflexivity|]); settle;
    (split; [reflexivity|]); settle; try reflexivity.
  all: symmetry; apply getitem_lookup; assumption.
Qed.

(** *** The enumeration *)

Section Runs.

(** Splitting on any class of separators: no piece is empty and no piece
    holds a separator. *)
Variable sep : ascii -> bool.
Variable go : list ascii -> string -> list string.
Hypothesis go_nil : forall cur,
  go cur EmptyString
  = match cur with
    | [] => []
    | _ => [string_of_list_ascii (List.rev cur)]
    end.
Hypothesis go_cons : forall cur c s,
  go cur (String c s)
  = if sep c
    then match cur with
         | [] => []
         | _ => [string_of_list_ascii (List.rev cur)]
         end ++ go [] s
    else go (c :: cur) s.

Lemma runs_clean (s : string) :
  forall cur,
    (forall c, In c cur -> sep c = false) ->
    forall o, In o (go cur s) ->
      o <> "" /\ forall c, In c (list_ascii_of_string o) -> sep c = false.
Proof.
  assert (Hflush : forall cur,
    (forall c, In c cur -> sep c = false) ->
    forall o, In o (match cur with
                    | [] => []
                    | _ => [string_of_list_ascii (List.rev cur)]
                    end) ->
      o <> "" /\ forall c, In c (list_ascii_of_string o) -> sep c = false).
  { intros cur Hcur o Hin. destruct cur as [|c0 cur0]; [destruct Hin|].
    destruct Hin as [<- | []]. split.
    - intros Hempty. apply (f_equal list_ascii_of_string) in Hempty.
      rewrite list_ascii_of_string_of_list_ascii in Hempty.
      cbn [List.rev list_ascii_of_string] in Hempty.
      destruct (List.rev cur0); discriminate.
    - intros c Hc. rewrite list_ascii_of_string_of_list_ascii in Hc.
      apply Hcur, in_rev, Hc. }
  induction s as [|c s IH]; intros cur Hcur o Hin.
  - rewrite go_nil in Hin. exact (Hflush cur Hcur o Hin).
  - rewrite go_cons in Hin. destruct (sep c) eqn:Hc.
    + apply in_app_or in Hin. destruct Hin as [Hin | Hin].
      * exact (Hflush cur Hcur o Hin).
      * apply (IH [] (fun c0 (H : In c0 []) => match H with end) o Hin).
    + apply (IH (c :: cur)); [|exact Hin].
      intros c0 [<- | Hc0]; [exact Hc | exact (Hcur c0 Hc0)].
Qed.

End Runs.

Lemma split_clean (s o : string) :
  In o (Py.split s) ->
  o <> "" /\ forall c, In c (list_ascii_of_string o) -> Py.isspace c = false.
Proof.
  apply (runs_clean Py.isspace Py.split_go).
  - intros cur. destruct cur; reflexivity.
  - intros cur c s'. reflexivity.
  - intros c [].
Qed.

Lemma split_bytes_clean (b o : string) :
  In o (Py.split_bytes b) ->
  o <> ""
  /\ forall c, In c (list_ascii_of_string o) -> Py.isspace_bytes c = false.
Proof.
  apply (runs_clean Py.isspace_bytes Py.split_bytes_go).
  - intros cur. destruct cur; reflexivity.
  - intros cur c s'. reflexivity.
  - intros c [].
Qed.

(** X11. The enumeration never raises, and what it returns is uniform and
    clean. When the tool's output decodes, every name is text, not empty
    and free of the white space of text: TAB to CR, FS to US, SPACE, NEL
    and NBSP. When it does not decode, every name is bytes, not empty and
    free of the white space of bytes: TAB to CR, and SPACE. *)
Theorem get_all_outputs_names st :
  exists all_outputs,
    fst (_get_all_outputs popen st) = Ok all_outputs
    /\ ((forall output, In output all_outputs ->
           exists s, output = Str s /\ s <> ""
             /\ forall c, In c (list_ascii_of_string s) ->
                  let n := nat_of_ascii c in
                  ~ (9 <= n <= 13)%nat /\ ~ (28 <= n <= 32)%nat
                  /\ n <> 133%nat /\ n <> 160%nat)
        \/ (forall output, In output all_outputs ->
              exists b, output = Bytes b /\ b <> ""
                /\ forall c, In c (list_ascii_of_string b) ->
                     let n := nat_of_ascii c in
                     ~ (9 <= n <= 13)%nat /\ n <> 32%nat)).
Proof.
  rewrite get_all_outputs_run. eexists. split; [reflexivity|].
  unfold enumerated.
  destruct (Py.strip_value (fst (popen list_cmd (world st)))) as [s|b];
    cbn [Py.split_value]; [left | right]; intros output Hin;
    apply in_map_iff in Hin; destruct Hin as (o & <- & Hin);
    exists o; (split; [reflexivity|]).
  - destruct (split_clean _ _ Hin) as [Hne Hclean].
    split; [exact Hne|]. intros c Hc. cbv zeta.
    specialize (Hclean c Hc). unfold Py.isspace in Hclean.
    cbv zeta in Hclean.
    repeat match goal with
           | H : _ || _ = false |- _ => apply orb_false_iff in H as [? ?]
           | H : _ && _ = false |- _ => apply andb_false_iff in H
           | H : Nat.eqb _ _ = false |- _ => apply Nat.eqb_neq in H
           end.
    rewrite !Nat.leb_gt in *. lia.
  - destruct (split_bytes_clean _ _ Hin) as [Hne Hclean].
    split; [exact Hne|]. intros c Hc. cbv zeta.
    specialize (Hclean c Hc). unfold Py.isspace_bytes in Hclean.
    cbv zeta in Hclean.
    repeat match goal with
           | H : _ || _ = false |- _ => apply orb_false_iff in H as [? ?]
           | H : _ && _ = false |- _ => apply andb_false_iff in H
           | H : Nat.eqb _ _ = false |- _ => apply Nat.eqb_neq in H
           end.
    rewrite !Nat.leb_gt in *. lia.
Qed.

(** X12. A configured screen name that is empty or contains a white-space
    character is never among the enumerated outputs: the screen counts as
    disconnected whatever the tool prints. *)
Theorem blank_screen_name_is_disconnected s w :
  screen self = Some s ->
  s = "" \/ (exists c, In c (list_ascii_of_string s) /\ Py.isspace c = true) ->
  disconnected popen self w = true.
Proof.
  intros Hs Hblank. unfold disconnected. rewrite Hs.
  apply negb_true_iff.
  destruct (Py.contains_value (enumerated popen w) (Str s)) eqn:Hc;
    [exfalso | reflexivity].
  unfold Py.contains_value in Hc. apply existsb_exists in Hc.
  destruct Hc as (o & Hin & Heq). unfold enumerated in Hin.
  destruct (Py.strip_value (fst (popen list_cmd w))) as [text|b];
    cbn [Py.split_value] in Hin; apply in_map_iff in Hin;
    destruct Hin as (name & <- & Hin); cbn [Py.value_eqb] in Heq;
    [|discriminate].
  apply String.eqb_eq in Heq. subst name.
  destruct (split_clean _ _ Hin) as [Hne Hclean].
  destruct Hblank as [-> | (c & Hc & Hsp)]; [congruence|].
  rewrite (Hclean c Hc) in Hsp. discriminate.
Qed.

(** *** Polling *)

(** After one rendering under a tool that answers alike, the instance has
    settled: the world is as before, and any further rendering shows the
    same text and colour and leaves [displayed] alone. *)
Lemma render_settled now1 now2 i3s_config st :
  stable popen (world st) ->
  let first := xrandr_rotate popen str_format self now1 i3s_config st in
  let second := xrandr_rotate popen str_format self now2 i3s_config (snd first) in
  world (snd first) = world st
  /\ shown (fst second) = shown (fst first)
  /\ displayed (snd second) = displayed (snd first).
Proof.
  intros Hst first second. subst first second. unfold stable in Hst.
  change (wp (xrandr_rotate popen str_format self now1 i3s_config)
            (fun r1 st1 =>
               world st1 = world st
               /\ wp (xrandr_rotate popen str_format self now2 i3s_config)
                    (fun r2 st2 => shown r2 = shown r1
                                   /\ displayed st2 = displayed st1) st1) st).
  repeat (wp_step; rewrite ?Hst; settle).
  all: split; [reflexivity|].
  all: repeat (wp_step; rewrite ?Hst; settle).
  all: try (split; reflexivity).
  all: congruence.
Qed.

Lemma poll_after nows : forall now0 i3s_config st response,
  stable popen (world st) ->
  fst (xrandr_rotate popen str_format self now0 i3s_config st) = Ok response ->
  exists printed st',
    poll popen str_format self nows i3s_config
      (snd (xrandr_rotate popen str_format self now0 i3s_config st))
    = (printed, None, st')
    /\ length printed = length nows
    /\ forall r, In r printed ->
         full_text r = full_text response /\ color r = color response.
Proof.
  induction nows as [|now1 later IH]; intros now0 i3s_config st response Hst Hrun.
  - eexists _, _. split; [reflexivity|]. split; [reflexivity|].
    intros r [].
  - destruct (render_settled now0 now1 i3s_config st Hst) as (Hw & Hshown & _).
    rewrite Hrun in Hshown. cbn [poll].
    destruct (xrandr_rotate popen str_format self now1 i3s_config
                (snd (xrandr_rotate popen str_format self now0 i3s_config st)))
      as [[r1|e] st1] eqn:Hsecond; cbn [fst shown] in Hshown;
      [|discriminate].
    injection Hshown as Htext Hcolor.
    assert (Hst1 : stable popen
              (world (snd (xrandr_rotate popen str_format self now0
                             i3s_config st))))
      by (rewrite Hw; exact Hst).
    destruct (IH now1 i3s_config _ r1 Hst1) as (printed & st' & Hpoll & Hlen & Hsame).
    { rewrite Hsecond. reflexivity. }
    rewrite Hsecond in Hpoll. cbn [snd] in Hpoll. rewrite Hpoll.
    eexists _, _. split; [reflexivity|]. split; [cbn [length]; congruence|].
    intros r [<- | Hin]; [split; assumption|].
    destruct (Hsame r Hin) as [-> ->]. split; assumption.
Qed.

(** X13. Polling an instance that nobody clicks, under a tool that answers
    alike: either the first rendering raises, nothing is printed and the
    loop ends there, or no rendering ever raises and every response shows
    the same text and the same colour as the first. *)
Theorem poll_steady nows i3s_config st :
  stable popen (world st) ->
  exists printed e st',
    poll popen str_format self nows i3s_config st = (printed, e, st')
    /\ ((e = None /\ length printed = length nows)
        \/ (printed = [] /\ exists x, e = Some x
            /\ exists now later, nows = now :: later
               /\ fst (xrandr_rotate popen str_format self now i3s_config st)
                  = Raise x))
    /\ forall r1 r2, In r1 printed -> In r2 printed ->
         full_text r1 = full_text r2 /\ color r1 = color r2.
Proof.
  intros Hst. destruct nows as [|now later].
  - eexists _, _, _. split; [reflexivity|]. split; [left; split; reflexivity|].
    intros r1 r2 [].
  - cbn [poll].
    destruct (xrandr_rotate popen str_format self now i3s_config st)
      as [[r|x] st1] eqn:Hfirst.
    + destruct (poll_after later now i3s_config st r Hst) as
        (printed & st' & Hpoll & Hlen & Hsame).
      { rewrite Hfirst. reflexivity. }
      rewrite Hfirst in Hpoll. cbn [snd] in Hpoll. rewrite Hpoll.
      eexists _, _, _. split; [reflexivity|].
      split; [left; split; [reflexivity | cbn [length]; congruence]|].
      assert (Hall : forall r', In r' (r :: printed) ->
                full_text r' = full_text r /\ color r' = color r).
      { intros r' [<- | Hin]; [split; reflexivity | exact (Hsame r' Hin)]. }
      intros r1 r2 H1 H2.
      destruct (Hall r1 H1) as [-> ->]. destruct (Hall r2 H2) as [-> ->].
      split; reflexivity.
    + eexists _, _, _. split; [reflexivity|].
      split; [right; split; [reflexivity|]; exists x; split; [reflexivity|];
              exists now, later;
              split; [reflexivity | rewrite Hfirst; reflexivity]|].
      intros r1 r2 [].
Qed.

(** One rendering of an instance without a configured screen, whose template
    is its icon alone, while the tool prints text and the output listed
    first has a name without NUL. *)
Lemma render_icon_only now i3s_config st first rest :
  screen self = None ->
  horizontal_icon self <> "" ->
  vertical_icon self <> "" ->
  (forall icon label, str_format (format self) icon label = Ok icon) ->
  is_Some (i3s_config !! "color_good") ->
  (forall cmd w, exists text, fst (popen cmd w) = Str text) ->
  enumerated popen (world st) = Str first :: rest ->
  Py.has_nul first = false ->
  exists response st' d,
    xrandr_rotate popen str_format self now i3s_config st = (Ok response, st')
    /\ descriptor popen first (snd (popen list_cmd (world st))) = Str d
    /\ full_text response
       = (if Py.truthy (displayed st) then displayed st
          else icon_for self d)
    /\ displayed st' = full_text response.
Proof.
  intros Hs Hh%truthy_spec Hv%truthy_spec Hfmt [good Hgood%getitem_ok]
    Htext Henum Hn.
  assert (Hstr : forall cmd w b,
            Py.strip_value (fst (popen cmd w)) = Bytes b -> False).
  { intros cmd w b H. destruct (Htext cmd w) as [text Ht].
    rewrite Ht in H. discriminate H. }
  destruct (Py.strip_value (fst (popen (query_cmd first)
                                   (snd (popen list_cmd (world st))))))
    as [d|b] eqn:Hdesc; [|destruct (Hstr _ _ _ Hdesc)].
  assert (Hwp : wp (xrandr_rotate popen str_format self now i3s_config)
            (fun r st' =>
               exists response,
                 r = Ok response
                 /\ full_text response
                    = (if Py.truthy (displayed st) then displayed st
                       else icon_for self d)
                 /\ displayed st' = full_text response) st).
  { unfold icon_for.
    repeat (wp_step; settle; concrete).
    all: try match goal with
             | H : Py.strip_value _ = Bytes _ |- _ =>
                 destruct (Hstr _ _ _ H)
             end.
    all: rewrite ?has_nul_query_cmd in *; try congruence.
    all: repeat match goal with
                | H : context [str_format (format self) ?i ?l] |- _ =>
                    rewrite (Hfmt i l) in H
                end.
    all: try discriminate.
    all: try match goal with
             | |- context [is_horizontal ?d] =>
                 destruct (is_horizontal d) eqn:Hd; rewrite ?Hd in *
             end.
    all: rewrite ?Hh, ?Hv in *.
    all: match goal with H : Ok _ = Ok _ |- _ => injection H as <- end.
    all: eexists; (split; [reflexivity|]); split; reflexivity. }
  apply wp_elim in Hwp. destruct Hwp as (r & st' & Hrun & response & -> & H).
  exists response, st', d. split; [exact Hrun|].
  split; [exact Hdesc | exact H].
Qed.

End Properties.

(** ** The test driver *)

Section Driver.

Context {Ext : Type}.
Variable popen : string -> Ext -> value * Ext.
Variable str_format : string -> string -> value -> outcome string.

(** At all times what the tool prints decodes, and it lists at least one
    output, the first under a name without NUL. *)
Hypothesis text_output : forall cmd w, exists text, fst (popen cmd w) = Str text.
Hypothesis some_output : forall w,
  exists first rest,
    enumerated popen w = Str first :: rest /\ Py.has_nul first = false.

Lemma poll_icon_only self i3s_config nows : forall st,
  screen self = None ->
  horizontal_icon self <> "" ->
  vertical_icon self <> "" ->
  (forall icon label, str_format (format self) icon label = Ok icon) ->
  is_Some (i3s_config !! "color_good") ->
  displayed st <> "" ->
  exists printed st',
    poll popen str_format self nows i3s_config st = (printed, None, st')
    /\ length printed = length nows
    /\ forall r, In r printed -> full_text r = displayed st.
Proof.
  induction nows as [|now later IH]; intros st Hs Hh Hv Hfmt Hgood Hd.
  - eexists _, _. split; [reflexivity|]. split; [reflexivity|]. intros r [].
  - destruct (some_output (world st)) as (first & rest & Henum & Hn).
    destruct (render_icon_only popen str_format self now i3s_config st
                first rest Hs Hh Hv Hfmt Hgood text_output Henum Hn)
      as (response & st1 & d & Hrun & _ & Htext & Hdisp).
    apply truthy_spec in Hd. rewrite Hd in Htext. apply truthy_spec in Hd.
    destruct (IH st1 Hs Hh Hv Hfmt Hgood) as (printed & st' & Hpoll & Hlen & Hall).
    { congruence. }
    cbn [poll]. rewrite Hrun, Hpoll.
    eexists _, _. split; [reflexivity|]. split; [cbn [length]; congruence|].
    intros r [<- | Hin]; [exact Htext|].
    rewrite (Hall r Hin). congruence.
Qed.

(** X14. The test driver, run against a tool whose output decodes at every
    poll and lists some output, the first under a name without NUL; the
    tool may change its answers in between. Then the program does not stop
    on an exception, it prints one response per poll, and the text of every
    response is the one icon, [H] or [V], of the answer given at the first
    poll for the output listed first at the first poll: a rotation made
    later is not shown in the text. *)
Theorem main_steady (nows : list Z) (w : Ext) :
  (forall icon label, str_format "{icon}" icon label = Ok icon) ->
  exists printed st' first rest d,
    main popen str_format nows w = (printed, None, st')
    /\ length printed = length nows
    /\ enumerated popen w = Str first :: rest
    /\ descriptor popen first (snd (popen list_cmd w)) = Str d
    /\ forall r, In r printed ->
         full_text r = (if is_horizontal d then "H" else "V").
Proof.
  intros Hfmt. unfold main.
  assert (Hgood : is_Some (test_colors !! "color_good"))
    by (exists "#00FF00"; reflexivity).
  assert (Hs : screen default_config = None) by reflexivity.
  assert (Hh : horizontal_icon default_config <> "") by discriminate.
  assert (Hv : vertical_icon default_config <> "") by discriminate.
  destruct (some_output w) as (first & rest & Henum & Hn).
  destruct (render_icon_only popen str_format default_config 0 test_colors
              (init w) first rest Hs Hh Hv Hfmt Hgood text_output Henum Hn)
    as (_ & _ & d & _ & Hdesc & _).
  cbn [init world] in Hdesc.
  destruct nows as [|now later].
  - exists [], (init w), first, rest, d. split; [reflexivity|].
    split; [reflexivity|]. split; [exact Henum|]. split; [exact Hdesc|].
    intros r [].
  - destruct (render_icon_only popen str_format default_config now test_colors
                (init w) first rest Hs Hh Hv Hfmt Hgood text_output Henum Hn)
      as (response & st1 & d' & Hrun & Hdesc' & Htext & Hdisp).
    cbn [init displayed world Py.truthy String.eqb negb] in Htext, Hdesc'.
    assert (d' = d) as -> by congruence.
    unfold icon_for in Htext.
    cbn [horizontal_icon vertical_icon default_config] in Htext.
    assert (Hd1 : displayed st1 <> "").
    { rewrite Hdisp, Htext. destruct (is_horizontal d); discriminate. }
    destruct (poll_icon_only default_config test_colors later st1
                Hs Hh Hv Hfmt Hgood Hd1)
      as (printed & st' & Hpoll & Hlen & Hall).
    cbn [poll]. rewrite Hrun, Hpoll.
    exists (response :: printed), st', first, rest, d.
    split; [reflexivity|]. split; [cbn [length]; congruence|].
    split; [exact Henum|]. split; [exact Hdesc|].
    intros r [<- | Hin]; [exact Htext|].
    rewrite (Hall r Hin). congruence.
Qed.

End Driver.

(** ** The scenarios of the specification *)

(** Scenario 1: one output, unrotated, nothing configured. *)
Example scenario_first_render :
  xrandr_rotate laptop_tool Py.format_plain default_config 0 test_colors
    (init tt)
  = (Ok {| cached_until := 10; full_text := "H"; color := Some "#00FF00" |},
     {| displayed := "H"; world := tt;
        calls := [list_cmd; query_cmd "eDP1"; query_cmd "eDP1"] |}).
Proof. vm_compute. reflexivity. Qed.

(** Scenario 2: the configured screen is absent and hidden. *)
Example scenario_hidden :
  xrandr_rotate silent_tool Py.format_plain hidden_vga_config 0 test_colors
    {| displayed := "H"; world := tt; calls := [] |}
  = (Ok {| cached_until := 10; full_text := ""; color := None |},
     {| displayed := ""; world := tt;
        calls := [list_cmd; query_cmd "VGA1"] |}).
Proof. vm_compute. reflexivity. Qed.

(** Scenario 4: two outputs, nothing configured. *)
Example scenario_all :
  fst (xrandr_rotate docked_tool Py.format_plain
         (with_format default_config "{icon} {screen}") 0 test_colors (init tt))
  = Ok {| cached_until := 10; full_text := "H ALL"; color := Some "#00FF00" |}.
Proof. vm_compute. reflexivity. Qed.

(** Scenario 5: a left click, then a right click. *)
Example scenario_click_then_apply :
  let st := {| displayed := "H"; world := tt; calls := [] |} in
  let st1 := snd (on_click docked_tool default_config (click 1) st) in
  let st2 := snd (on_click docked_tool default_config (click 3) st1) in
  displayed st1 = "V"
  /\ displayed st2 = "V"
  /\ calls st2 = [list_cmd; rotate_cmd "eDP1" "left"; rotate_cmd "VGA1" "left"].
Proof. vm_compute. repeat split. Qed.

(** Output that does not decode: the enumeration is bytes, and the first
    rendering raises when it builds the query for the first name. *)
Example scenario_undecoded :
  enumerated raw_tool tt = [Bytes "eDP1"; Bytes (String "255"%char "GA1")]
  /\ xrandr_rotate raw_tool Py.format_plain default_config 0 test_colors
       (init tt)
     = (Raise TypeError,
        {| displayed := ""; world := tt; calls := [list_cmd] |}).
Proof. vm_compute. repeat split. Qed.

(** C1, the failing input. With [screen] set to [VGA1] and two outputs
    enumerated, [VGA1] among them, the label put in the template is [ALL],
    not [VGA1]: the test on the number of outputs is made first and the
    configured name is only looked at when there is exactly one. *)
Theorem screen_label_configured_two_outputs :
  enumerated docked_tool tt = [Str "eDP1"; Str "VGA1"]
  /\ screen vga_config = Some "VGA1"
  /\ screen_label vga_config [Str "eDP1"; Str "VGA1"] = Str "ALL"
  /\ fst (xrandr_rotate docked_tool Py.format_plain vga_config 0 test_colors
            (init tt))
     = Ok {| cached_until := 10; full_text := "H ALL";
             color := Some "#00FF00" |}.
Proof. vm_compute. repeat split. Qed.

(** C2 fails as stated: in its scenario the text carries the icon [V] and
    no question mark. *)
Lemma render_disconnected_counterexample :
  screen vga_config = Some "VGA1"
  /\ hide_if_disconnected vga_config = false
  /\ enumerated silent_tool tt = [Str "eDP1"]
  /\ Py.format "{icon} {screen}" "V" (Str "VGA1") = Some (Ok "V VGA1")
  /\ xrandr_rotate silent_tool Py.format_plain vga_config 0 test_colors (init tt)
     = (Ok {| cached_until := 10; full_text := "V VGA1";
              color := Some "#FFFF00" |},
        {| displayed := "V"; world := tt;
           calls := [list_cmd; query_cmd "VGA1"] |})
  /\ String.index 0 "?" "V VGA1" = None.
Proof. vm_compute. repeat split. Qed.

Lemma render_disconnected_shown_witness :
  (screen vga_config = Some "VGA1"
   /\ hide_if_disconnected vga_config = false
   /\ displayed (init tt) = ""
   /\ enumerated silent_tool (world (init tt)) = [Str "eDP1"]
   /\ test_colors !! "color_degraded" = Some "#FFFF00"
   /\ descriptor silent_tool "VGA1" tt = Str ""
   /\ Py.format_plain (format vga_config) "V" (Str "VGA1") = Ok "V VGA1"
   /\ exists st',
        xrandr_rotate silent_tool Py.format_plain vga_config 0 test_colors
          (init tt)
        = (Ok {| cached_until := 0 + cache_timeout vga_config;
                 full_text := "V VGA1";
                 color := Some "#FFFF00" |}, st')
        /\ displayed st' = "V")
  /\ (enumerated garbled_tool (world (init tt)) = [Str "eDP1"]
      /\ descriptor garbled_tool "VGA1" tt = Bytes (String "255"%char "")
      /\ fst (xrandr_rotate garbled_tool Py.format_plain vga_config 0
                test_colors (init tt))
         = Raise TypeError).
Proof.
  split.
  - repeat (split; [reflexivity|]).
    destruct (render_disconnected_shown silent_tool Py.format_plain vga_config
                0 test_colors (init tt) "#FFFF00") as [Htext _];
      [reflexivity .. |].
    destruct (Htext "" eq_refl) as (_ & _ & Hshown).
    apply (Hshown "V VGA1"). reflexivity.
  - repeat (split; [reflexivity|]).
    destruct (render_disconnected_shown garbled_tool Py.format_plain vga_config
                0 test_colors (init tt) "#FFFF00") as [_ Hbytes];
      [reflexivity .. |].
    apply (Hbytes (String "255"%char "")). reflexivity.
Defined.

Lemma render_no_outputs_raises_witness :
  screen default_config = None
  /\ displayed (init tt) = ""
  /\ enumerated mute_tool (world (init tt)) = []
  /\ fst (xrandr_rotate mute_tool Py.format_plain default_config 0 test_colors
            (init tt))
     = Raise IndexError.
Proof.
  repeat (split; [reflexivity|]).
  apply (render_no_outputs_raises mute_tool Py.format_plain default_config
           0 test_colors (init tt));
    reflexivity.
Defined.

(** C4 fails as stated: for the empty descriptor the icon is the vertical
    one. *)
Lemma current_rotation_icon_counterexample :
  descriptor silent_tool "eDP1" tt = Str ""
  /\ fst (_get_current_rotation_icon silent_tool default_config [Str "eDP1"]
            (init tt))
     = Ok (vertical_icon default_config)
  /\ fst (_get_current_rotation_icon silent_tool default_config [Str "eDP1"]
            (init tt))
     <> Ok (horizontal_icon default_config).
Proof. vm_compute. repeat split. discriminate. Qed.

Lemma current_rotation_icon_classification_witness :
  (fst (screen_or_first default_config [Str "eDP1"] (init tt))
   = Ok (Str "eDP1")
   /\ Py.has_nul "eDP1" = false
   /\ descriptor laptop_tool "eDP1" (world (init tt)) = Str "normal"
   /\ fst (_get_current_rotation_icon laptop_tool default_config [Str "eDP1"]
             (init tt))
      = Ok (horizontal_icon default_config))
  /\ (descriptor garbled_tool "eDP1" (world (init tt))
      = Bytes (String "255"%char "")
      /\ fst (_get_current_rotation_icon garbled_tool default_config
                [Str "eDP1"] (init tt))
         = Raise TypeError).
Proof.
  split.
  - repeat (split; [reflexivity|]).
    destruct (current_rotation_icon_classification laptop_tool default_config
                [Str "eDP1"] "eDP1" (init tt)) as [Htext _];
      [reflexivity .. |].
    destruct (Htext "normal" eq_refl) as (Hh & _ & _).
    apply Hh. left. reflexivity.
  - split; [reflexivity|].
    destruct (current_rotation_icon_classification garbled_tool default_config
                [Str "eDP1"] "eDP1" (init tt)) as [_ Hbytes];
      [reflexivity .. |].
    apply (Hbytes (String "255"%char "")). reflexivity.
Defined.

Lemma on_click_toggle_witness :
  click 4 !! "button" = Some 4
  /\ exists st',
       on_click laptop_tool default_config (click 4)
         {| displayed := "H"; world := tt; calls := [] |} = (Ok tt, st')
       /\ (displayed st' = "H" \/ displayed st' = "V")
       /\ ("H" = "H" -> displayed st' = "V")
       /\ ("H" <> "H" -> displayed st' = "H")
       /\ world st' = tt /\ calls st' = [].
Proof.
  split; [reflexivity|].
  apply (on_click_toggle laptop_tool default_config (click 4) 4
           {| displayed := "H"; world := tt; calls := [] |});
    [reflexivity | right; left; reflexivity].
Defined.

Lemma on_click_other_button_witness :
  click 2 !! "button" = Some 2
  /\ on_click laptop_tool default_config (click 2)
       {| displayed := "V"; world := tt; calls := [list_cmd] |}
     = (Ok tt, {| displayed := "V"; world := tt; calls := [list_cmd] |}).
Proof.
  split; [reflexivity|].
  apply (on_click_other_button laptop_tool default_config (click 2) 2);
    [reflexivity | lia | lia | lia | lia].
Defined.

(** C10 fails as stated: with the horizontal icon configured as the empty
    string, a click from the empty field sets the vertical icon. *)
Lemma on_click_from_empty_counterexample :
  let self := with_icons default_config "" "V" in
  displayed (init tt) = ""
  /\ displayed (snd (on_click laptop_tool self (click 1) (init tt)))
     = vertical_icon self
  /\ displayed (snd (on_click laptop_tool self (click 1) (init tt)))
     <> horizontal_icon self.
Proof. vm_compute. repeat split. discriminate. Qed.

Lemma on_click_from_empty_witness :
  displayed (init tt) = ""
  /\ click 1 !! "button" = Some 1
  /\ exists st',
       on_click laptop_tool default_config (click 1) (init tt) = (Ok tt, st')
       /\ ("H" <> "" -> displayed st' = "H")
       /\ ("H" = "" -> displayed st' = "V").
Proof.
  repeat (split; [reflexivity|]).
  apply (on_click_from_empty laptop_tool default_config (click 1) 1 (init tt));
    [reflexivity | reflexivity | left; reflexivity].
Defined.

(** C8 fails as stated, twice. With the horizontal icon configured as the
    empty string, a click with button 3 from the empty [displayed] sends
    the horizontal keyword, not the vertical one. And with three outputs
    enumerated, the second under a name that holds a NUL character, the
    click raises after one rotation command: the second and the third
    output get none. *)
Lemma on_click_apply_counterexample :
  let self := with_icons default_config "" "V" in
  (displayed (init tt) = ""
   /\ horizontal_rotation self = "normal"
   /\ vertical_rotation self = "left"
   /\ on_click docked_tool self (click 3) (init tt)
      = (Ok tt,
         {| displayed := ""; world := tt;
            calls := [list_cmd; "xrandr --output eDP1 --rotate normal";
                      "xrandr --output VGA1 --rotate normal"] |}))
  /\ (enumerated nul_tool tt
      = [Str "eDP1"; Str ("VG" +:+ nul +:+ "A1"); Str "DP2"]
      /\ on_click nul_tool default_config (click 3) (init tt)
         = (Raise ValueError,
            {| displayed := ""; world := tt;
               calls := [list_cmd; "xrandr --output eDP1 --rotate left"] |})).
Proof. vm_compute. repeat split. Qed.

Lemma on_click_apply_witness :
  click 3 !! "button" = Some 3
  /\ displayed (init tt) <> horizontal_icon default_config
  /\ enumerated docked_tool (world (init tt)) = [Str "eDP1"; Str "VGA1"]
  /\ exists st',
       on_click docked_tool default_config (click 3) (init tt) = (Ok tt, st')
       /\ displayed st' = ""
       /\ calls st'
          = [list_cmd; "xrandr --output eDP1 --rotate left";
             "xrandr --output VGA1 --rotate left"].
Proof.
  split; [reflexivity|]. split; [discriminate|]. split; [reflexivity|].
  apply (on_click_apply docked_tool default_config (click 3) (init tt)
           "left" ["eDP1"; "VGA1"]).
  - reflexivity.
  - right. left. split; [discriminate | reflexivity].
  - right. split; reflexivity.
  - reflexivity.
  - intros name [<- | [<- | []]]; reflexivity.
Defined.

Lemma render_twice_witness :
  stable laptop_tool (world (init tt))
  /\ shown (fst (xrandr_rotate laptop_tool Py.format_plain default_config 7
                   test_colors
                   (snd (xrandr_rotate laptop_tool Py.format_plain
                           default_config 0 test_colors (init tt)))))
     = shown (fst (xrandr_rotate laptop_tool Py.format_plain default_config 0
                     test_colors (init tt))).
Proof.
  assert (Hst : stable laptop_tool (world (init tt)))
    by (intros cmd; reflexivity).
  split; [exact Hst|].
  apply (render_twice laptop_tool Py.format_plain default_config 0 7
           test_colors (init tt) Hst).
Defined.

(** ** The further properties at work *)

Lemma format_plain_icon (icon : string) (label : value) :
  Py.format_plain "{icon}" icon label = Ok icon.
Proof.
  assert (Hnil : forall s : string, s +:+ "" = s)
    by (induction s as [|c s IH];
        [reflexivity
        | change (String c s +:+ "") with (String c (s +:+ ""));
          rewrite IH; reflexivity]).
  unfold Py.format_plain, Py.format. cbn.
  change (Py.field_value icon label "icon") with (Some (Ok icon)).
  cbv iota. cbn [Py.prepend]. rewrite Hnil. reflexivity.
Qed.

Lemma laptop_tool_stable : stable laptop_tool tt.
Proof. intros cmd. reflexivity. Qed.

Lemma fixed_tool_text names d cmd (w : unit) :
  exists text, fst (fixed_tool names d cmd w) = Str text.
Proof. eexists. reflexivity. Qed.

Lemma turned_tool_text cmd (w : unit) :
  exists text, fst (turned_tool cmd w) = Str text.
Proof. eexists. reflexivity. Qed.

Lemma turned_tool_some_output (w : unit) :
  exists first rest,
    enumerated turned_tool w = Str first :: rest /\ Py.has_nul first = false.
Proof. exists "eDP1", [Str "VGA1"]. split; reflexivity. Qed.

Lemma on_click_missing_button_witness :
  (∅ : gmap string Z) !! "button" = None
  /\ on_click laptop_tool default_config ∅ (init tt)
     = (Raise (KeyError "button"), init tt).
Proof.
  split; [reflexivity|].
  apply (on_click_missing_button laptop_tool default_config ∅ (init tt)).
  reflexivity.
Defined.

Lemma on_click_apply_stops_witness :
  (click 3 !! "button" = Some 3
   /\ enumerated nul_tool (world (init tt))
      = map Str (["eDP1"] ++ ("VG" +:+ nul +:+ "A1") :: ["DP2"])
   /\ Py.has_nul ("VG" +:+ nul +:+ "A1") = true
   /\ exists st',
        on_click nul_tool default_config (click 3) (init tt)
        = (Raise ValueError, st')
        /\ displayed st' = ""
        /\ calls st' = [list_cmd; "xrandr --output eDP1 --rotate left"])
  /\ (enumerated raw_tool (world (init tt))
      = Bytes "eDP1" :: [Bytes (String "255"%char "GA1")]
      /\ exists st',
           on_click raw_tool default_config (click 3) (init tt)
           = (Raise TypeError, st')
           /\ displayed st' = ""
           /\ calls st' = [list_cmd]).
Proof.
  split.
  - repeat (split; [reflexivity|]).
    destruct (on_click_apply_stops nul_tool default_config (click 3) (init tt)
                "left") as [Hnul _];
      [reflexivity | right; split; [discriminate | reflexivity]
      | reflexivity | reflexivity |].
    apply (Hnul ["eDP1"] ("VG" +:+ nul +:+ "A1") ["DP2"]);
      [reflexivity | intros name [<- | []]; reflexivity | reflexivity].
  - split; [reflexivity|].
    destruct (on_click_apply_stops raw_tool default_config (click 3) (init tt)
                "left") as [_ Hbytes];
      [reflexivity | right; split; [discriminate | reflexivity]
      | reflexivity | reflexivity |].
    apply (Hbytes "eDP1" [Bytes (String "255"%char "GA1")]). reflexivity.
Defined.

Lemma on_click_twice_witness :
  let st := {| displayed := "V"; world := tt; calls := [list_cmd] |} in
  horizontal_icon default_config <> vertical_icon default_config
  /\ click 1 !! "button" = Some 1
  /\ click 5 !! "button" = Some 5
  /\ snd (on_click laptop_tool default_config (click 5)
            (snd (on_click laptop_tool default_config (click 1) st))) = st.
Proof.
  intros st. split; [discriminate|]. split; [reflexivity|].
  split; [reflexivity|].
  apply (on_click_twice laptop_tool default_config (click 1) (click 5) 1 5 st);
    [discriminate | right; reflexivity | reflexivity | left; reflexivity
    | reflexivity | right; right; reflexivity].
Defined.

Lemma on_click_toggle_then_apply_witness :
  click 1 !! "button" = Some 1
  /\ click 3 !! "button" = Some 3
  /\ displayed (init tt) <> horizontal_icon default_config
  /\ enumerated docked_tool (world (init tt)) = [Str "eDP1"; Str "VGA1"]
  /\ exists st3,
       on_click docked_tool default_config (click 3)
         (snd (on_click docked_tool default_config (click 1) (init tt)))
       = (Ok tt, st3)
       /\ displayed st3 = "H"
       /\ calls st3
          = [list_cmd; "xrandr --output eDP1 --rotate normal";
             "xrandr --output VGA1 --rotate normal"].
Proof.
  split; [reflexivity|]. split; [reflexivity|]. split; [discriminate|].
  split; [reflexivity|].
  apply (on_click_toggle_then_apply docked_tool default_config
           (click 1) 1 (click 3) (init tt) "normal" ["eDP1"; "VGA1"]).
  - discriminate.
  - reflexivity.
  - left. reflexivity.
  - reflexivity.
  - right. left. split; [discriminate | reflexivity].
  - right. split; reflexivity.
  - reflexivity.
  - intros name [<- | [<- | []]]; reflexivity.
Defined.

Lemma render_hidden_witness :
  let st := {| displayed := "H"; world := tt; calls := [] |} in
  screen hidden_vga_config = Some "VGA1"
  /\ Py.contains_value (enumerated silent_tool (world st)) (Str "VGA1") = false
  /\ hide_if_disconnected hidden_vga_config = true
  /\ displayed (snd (xrandr_rotate silent_tool Py.format_plain
                       hidden_vga_config 0 test_colors st)) = "".
Proof.
  intros st. repeat (split; [reflexivity|]).
  apply (render_hidden silent_tool Py.format_plain hidden_vga_config 0
           test_colors st "VGA1");
    [reflexivity | reflexivity | reflexivity | discriminate | discriminate].
Defined.

Lemma render_returns_witness :
  (forall cmd w, exists text, fst (laptop_tool cmd w) = Str text)
  /\ enumerated laptop_tool (world (init tt)) = [Str "eDP1"]
  /\ Py.has_nul "eDP1" = false
  /\ (forall icon label, exists text,
        Py.format_plain (format default_config) icon label = Ok text)
  /\ is_Some (test_colors !! "color_good")
  /\ is_Some (test_colors !! "color_degraded")
  /\ exists response,
       fst (xrandr_rotate laptop_tool Py.format_plain default_config 0
              test_colors (init tt)) = Ok response.
Proof.
  assert (Htext : forall cmd w, exists text, fst (laptop_tool cmd w) = Str text)
    by apply fixed_tool_text.
  assert (Hfmt : forall icon label, exists text,
             Py.format_plain (format default_config) icon label = Ok text)
    by (intros icon label; exists icon; apply format_plain_icon).
  assert (Hgood : is_Some (test_colors !! "color_good"))
    by (exists "#00FF00"; reflexivity).
  assert (Hdeg : is_Some (test_colors !! "color_degraded"))
    by (exists "#FFFF00"; reflexivity).
  split; [exact Htext|]. split; [reflexivity|]. split; [reflexivity|].
  split; [exact Hfmt|]. split; [exact Hgood|]. split; [exact Hdeg|].
  apply (render_returns laptop_tool Py.format_plain default_config 0
           test_colors (init tt) Htext); [|exact Hfmt | exact Hgood | exact Hdeg].
  right. split; [reflexivity|]. exists "eDP1", []. split; reflexivity.
Defined.

Lemma render_keeps_selection_witness :
  let st := {| displayed := "V"; world := tt; calls := [] |} in
  displayed st <> ""
  /\ disconnected laptop_tool default_config (world st)
     && hide_if_disconnected default_config = false
  /\ descriptor laptop_tool "eDP1" tt = Str "normal"
  /\ displayed (snd (xrandr_rotate laptop_tool Py.format_plain default_config
                       0 test_colors st)) = "V".
Proof.
  intros st. split; [discriminate|]. split; [reflexivity|].
  split; [reflexivity|].
  apply (render_keeps_selection laptop_tool Py.format_plain default_config 0
           test_colors st); [discriminate | reflexivity].
Defined.

Lemma render_discovers_witness :
  (displayed (init tt) = ""
   /\ enumerated turned_tool (world (init tt)) = [Str "eDP1"; Str "VGA1"]
   /\ descriptor turned_tool "eDP1" tt = Str "left"
   /\ descriptor turned_tool "VGA1" tt = Str "normal"
   /\ displayed (snd (xrandr_rotate turned_tool Py.format_plain default_config
                        0 test_colors (init tt)))
      = "V")
  /\ (screen vga_config = Some "VGA1"
      /\ displayed (snd (xrandr_rotate turned_tool Py.format_plain vga_config
                           0 test_colors (init tt)))
         = "H").
Proof.
  split.
  - repeat (split; [reflexivity|]).
    destruct (render_discovers turned_tool Py.format_plain default_config 0
                test_colors (init tt)) as [_ Hfirst];
      [reflexivity | reflexivity |].
    destruct (Hfirst "eDP1" [Str "VGA1"] "left") as [Hicon _];
      [reflexivity .. |].
    exact Hicon.
  - split; [reflexivity|].
    destruct (render_discovers turned_tool Py.format_plain vga_config 0
                test_colors (init tt)) as [Hscreen _];
      [reflexivity | reflexivity |].
    destruct (Hscreen "VGA1" "normal") as [Hicon _];
      [reflexivity | discriminate | reflexivity | reflexivity |].
    exact Hicon.
Defined.

Lemma render_color_witness :
  let st := {| displayed := "V"; world := tt; calls := [] |} in
  let response := {| cached_until := 10; full_text := "V"; color := None |} in
  stable laptop_tool (world st)
  /\ fst (xrandr_rotate laptop_tool Py.format_plain default_config 0
            test_colors st) = Ok response
  /\ exists target icon,
       fst (screen_or_first default_config
              (enumerated laptop_tool (world st)) st) = Ok (Str target)
       /\ icon_of laptop_tool default_config target (world st) = Ok icon
       /\ color response
          = if String.eqb
                 (displayed (snd (xrandr_rotate laptop_tool Py.format_plain
                                    default_config 0 test_colors st)))
                 icon
            then test_colors !! "color_good" else None.
Proof.
  intros st response. split; [exact laptop_tool_stable|].
  split; [reflexivity|].
  apply (render_color laptop_tool Py.format_plain default_config 0
           test_colors st response laptop_tool_stable eq_refl).
  reflexivity.
Defined.

Lemma blank_screen_name_is_disconnected_witness :
  let self := with_screen default_config (Some "DP 1") in
  screen self = Some "DP 1"
  /\ Py.isspace " " = true
  /\ disconnected docked_tool self tt = true.
Proof.
  intros self. split; [reflexivity|]. split; [reflexivity|].
  apply (blank_screen_name_is_disconnected docked_tool self "DP 1" tt);
    [reflexivity|].
  right. exists " "%char. split; [|reflexivity].
  right. right. left. reflexivity.
Defined.

Lemma poll_steady_witness :
  stable laptop_tool (world (init tt))
  /\ exists printed e st',
       poll laptop_tool Py.format_plain default_config [0; 1; 2] test_colors
         (init tt) = (printed, e, st')
       /\ ((e = None /\ length printed = 3%nat)
           \/ (printed = [] /\ exists x, e = Some x
               /\ exists now later, [0; 1; 2] = now :: later
                  /\ fst (xrandr_rotate laptop_tool Py.format_plain
                            default_config now test_colors (init tt))
                     = Raise x))
       /\ forall r1 r2, In r1 printed -> In r2 printed ->
            full_text r1 = full_text r2 /\ color r1 = color r2.
Proof.
  split; [exact laptop_tool_stable|].
  apply (poll_steady laptop_tool Py.format_plain default_config [0; 1; 2]
           test_colors (init tt) laptop_tool_stable).
Defined.

Lemma main_steady_witness :
  (forall cmd w, exists text, fst (turned_tool cmd w) = Str text)
  /\ (forall w, exists first rest,
        enumerated turned_tool w = Str first :: rest
        /\ Py.has_nul first = false)
  /\ (forall icon label, Py.format_plain "{icon}" icon label = Ok icon)
  /\ exists printed st' first rest d,
       main turned_tool Py.format_plain [0; 1; 2] tt = (printed, None, st')
       /\ length printed = 3%nat
       /\ enumerated turned_tool tt = Str first :: rest
       /\ descriptor turned_tool first (snd (turned_tool list_cmd tt)) = Str d
       /\ forall r, In r printed ->
            full_text r = (if is_horizontal d then "H" else "V").
Proof.
  split; [exact turned_tool_text|]. split; [exact turned_tool_some_output|].
  split; [exact format_plain_icon|].
  apply (main_steady turned_tool Py.format_plain turned_tool_text
           turned_tool_some_output [0; 1; 2] tt format_plain_icon).
Defined.
